(** * sweetalert-helpers: a shallow embedding of [src/index.js]

    The module wraps the sweetalert2 dialog widget.  The embedding follows
    the source function by function:

    - JavaScript values are split in primitives ([prim]) and plain data
      objects ([jsval]); numbers are the integers, printed in decimal;
    - template literals and [+] on strings become string concatenation of
      [ToString] of the interpolated values;
    - [document] is a finite map from element ids to elements;
    - the widget is an oracle from the configuration it is fired with to the
      way its promise settles, and every call made on the widget is recorded
      in a trace;
    - a promise is represented by the way it settles; exceptions thrown by
      callbacks and by property access on [null]/[undefined] are explicit.

    Objects hold own data properties only (no getters, no prototype
    tricks), and callbacks are pure functions that return or throw.  A
    thenable is modelled where a helper hands a value of its caller to a
    promise ([payload]); the outcome of a dialog is never one. *)

From Stdlib Require Import ZArith List Bool Ascii String DecimalString.
From stdpp Require Import base option list strings gmap.

Local Open Scope string_scope.
Local Open Scope Z_scope.

(** ** JavaScript values *)

Inductive prim : Type :=
| Undefined
| Null
| Bool (b : bool)
| Num (n : Z)
| Str (s : string).

#[warnings="-register-all"] Inductive jsval : Type :=
| Prim (p : prim)
| Obj (fields : gmap string jsval).

Coercion Prim : prim >-> jsval.

#[global] Instance prim_eq_dec : EqDecision prim.
Proof. solve_decision. Defined.

(** ToBoolean *)
Definition truthyP (p : prim) : bool :=
  match p with
  | Undefined | Null => false
  | Bool b => b
  | Num n => negb (n =? 0)
  | Str s => negb (String.eqb s "")
  end.

Definition truthy (v : jsval) : bool :=
  match v with
  | Prim p => truthyP p
  | Obj _ => true
  end.

(** ToString, as performed by a template literal and by [+] with a string *)
Definition ToString (p : prim) : string :=
  match p with
  | Undefined => "undefined"
  | Null => "null"
  | Bool true => "true"
  | Bool false => "false"
  | Num n => NilZero.string_of_int (Z.to_int n)
  | Str s => s
  end.

(** [a === b] on primitives *)
Definition strict_eq (a b : prim) : bool :=
  match a, b with
  | Undefined, Undefined => true
  | Null, Null => true
  | Bool x, Bool y => Bool.eqb x y
  | Num x, Num y => x =? y
  | Str x, Str y => String.eqb x y
  | _, _ => false
  end.

(** [a || b] *)
Definition or_else (a b : prim) : prim := if truthyP a then a else b.
Infix "|||" := or_else (at level 50, left associativity).

(** a default parameter value [x = d] applies when [x] is [undefined] *)
Definition default_to (d : prim) (x : prim) : prim :=
  match x with Undefined => d | _ => x end.

(** [Array.prototype.join('')]: [undefined] and [null] print as nothing *)
Definition join_item (p : prim) : string :=
  match p with
  | Undefined | Null => ""
  | _ => ToString p
  end.

Definition join (items : list prim) : string :=
  fold_right (fun p acc => join_item p ++ acc) "" items.

Definition joinStrings (items : list string) : string :=
  fold_right String.append "" items.

(** ** Exceptions and promises *)

Inductive exn : Type :=
| TypeError
| Error (message : string)
| Value (v : jsval).

Inductive completion (A : Type) : Type :=
| Normal (a : A)
| Throw (e : exn).
Arguments Normal {A} a.
Arguments Throw {A} e.

#[global] Instance completion_ret : MRet completion := @Normal.

#[global] Instance completion_bind : MBind completion :=
  fun A B (k : A -> completion B) (c : completion A) =>
    match c with
    | Normal a => k a
    | Throw e => Throw e
    end.

(** a value that may or may not be callable *)
Inductive callable (A B : Type) : Type :=
| NotCallable (v : prim)
| Function (f : A -> completion B).
Arguments NotCallable {A B} v.
Arguments Function {A B} f.

Definition call {A B} (c : callable A B) (a : A) : completion B :=
  match c with
  | NotCallable _ => Throw TypeError
  | Function f => f a
  end.

(** property read [v.k] *)
Definition get (v : jsval) (k : string) : completion jsval :=
  match v with
  | Prim Undefined | Prim Null => Throw TypeError
  | Prim _ => Normal (Prim Undefined)
  | Obj fields => Normal (default (Prim Undefined) (fields !! k))
  end.

Inductive settled : Type :=
| Resolved (v : jsval)
| Rejected (e : exn).

Definition Promise_resolve (v : jsval) : settled := Resolved v.
Definition Promise_reject (v : jsval) : settled := Rejected (Value v).

(** [p.then(f)] for a callback whose return value is not a thenable *)
Definition then_ (p : settled) (f : jsval -> completion jsval) : settled :=
  match p with
  | Resolved v =>
      match f v with
      | Normal r => Resolved r
      | Throw e => Rejected e
      end
  | Rejected e => Rejected e
  end.

(** a value handed in by the caller: the value itself and, when it is a
    thenable (a promise, or any object with a [then] method), the way a
    promise that adopts it settles; a thenable that never calls back is
    left out *)
Record payload : Type := {
  payloadValue : jsval;
  payloadThen : option settled
}.

(** resolving a promise with the value a callback returned: a thenable is
    adopted, any other value fulfils the promise *)
Definition resolveWith (data : payload) : settled :=
  match payloadThen data with
  | Some adopted => adopted
  | None => Resolved (payloadValue data)
  end.

(** [p.then(f)] for a callback that may return a thenable *)
Definition thenAdopting (p : settled) (f : jsval -> completion payload) : settled :=
  match p with
  | Resolved v =>
      match f v with
      | Normal r => resolveWith r
      | Throw e => Rejected e
      end
  | Rejected e => Rejected e
  end.

(** [new Promise((resolve, reject) => body)] where [body] settles the
    promise by its last statement or throws *)
Definition Promise_new (body : completion jsval) : settled :=
  match body with
  | Normal v => Resolved v
  | Throw e => Rejected e
  end.

(** ** Data model *)

(** a DOM element, as far as the helpers look at it *)
Module Element.
Record t : Type := { value : prim }.
End Element.

(** [document]: the elements that carry an id *)
Abbreviation DOM := (gmap string Element.t).

(** [document.getElementById(id)]; the argument is converted to a string *)
Definition getElementById (document : DOM) (id : prim) : option Element.t :=
  document !! ToString id.

(** an entry of [input.options] *)
Module SelectOption.
Record t : Type := { value : prim; name : prim; disabled : prim }.
End SelectOption.

(** an entry of [options.inputs] *)
Module Input.
Record t : Type := {
  id : prim;
  name : prim;
  fieldName : prim;
  type : prim;
  value : prim;
  placeholder : prim;
  label : prim;
  disabled : prim;
  cols : prim;
  rows : prim;
  maxLength : prim;
  options : option (list SelectOption.t);
  formatValue : callable prim jsval
}.
End Input.

(** an entry of [options.validations] *)
Module Validation.
Record t : Type := {
  id : prim;
  name : prim;
  validate : callable Element.t jsval;
  messageOnFail : prim
}.
End Validation.

(** calls made on the widget and on the page while a helper or one of the
    callbacks it registers runs *)
Inductive effect : Type :=
| PreventDefault
| Close
| ResetValidationError
| ShowValidationError (message : string)
| Focus (id : string).

(** the configuration object handed to [sweetalert2] *)
Module Swal.
Record t : Type := {
  titleText : prim;
  text : prim;
  type : prim;
  confirmButtonText : prim;
  cancelButtonText : prim;
  showCancelButton : prim;
  showCloseButton : prim;
  html : option string;
  onOpen : option (DOM -> list effect);
  preConfirm : option (DOM -> jsval -> settled * list effect)
}.
End Swal.

(** what a helper did: the dialogs it fired, the other calls it made, and
    how the promise it returns settles *)
Record run : Type := {
  dialogs : list Swal.t;
  effects : list effect;
  promise : settled
}.

(** ** FieldRenderer: [getInputHtmlforPrompt] *)

Definition dq : string := String (ascii_of_nat 34) "".
Definition nl : string := String (ascii_of_nat 10) "".
Definition cr : string := String (ascii_of_nat 13) "".

Definition inputDisabled (input : Input.t) : string :=
  if truthyP (Input.disabled input) then "disabled" else "".

(** the template assigned to [label] when [input.label] is truthy *)
Definition labelBlock (input : Input.t) : string :=
  nl ++ "      <p class=" ++ dq ++ "marg-top-20" ++ dq ++ ">" ++
  nl ++ "        <label htmlFor=" ++ dq ++ ToString (Input.id input ||| Str "") ++ dq ++ ">"
     ++ ToString (Input.label input) ++ "</label>" ++
  nl ++ "      </p>" ++
  nl ++ "    ".

(** [let label; if (input.label) { label = ... }] *)
Definition label (input : Input.t) : prim :=
  if truthyP (Input.label input) then Str (labelBlock input) else Undefined.

Definition optionSelected (input : Input.t) (option : SelectOption.t) : string :=
  if strict_eq (Input.value input) (SelectOption.value option) then "selected" else "".

Definition optionDisabled (option : SelectOption.t) : string :=
  if truthyP (SelectOption.disabled option) then "disabled" else "".

(** the template returned for one entry of [input.options], with its two
    local variables *)
Definition optionTemplate (option : SelectOption.t)
    (optionSelected optionDisabled : string) : string :=
  "<option" ++
  nl ++ "          value=" ++ dq ++ ToString (SelectOption.value option ||| Str "") ++ dq ++
  nl ++ "          " ++ optionSelected ++
  nl ++ "          " ++ optionDisabled ++
  nl ++ "        >" ++
  nl ++ "          "
     ++ ToString (SelectOption.name option ||| SelectOption.value option ||| Str "") ++
  nl ++ "        </option>".

Definition optionHtml (input : Input.t) (option : SelectOption.t) : string :=
  optionTemplate option (optionSelected input option) (optionDisabled option).

(** [(input.options || []).map(option => ...).join('')] *)
Definition options (input : Input.t) : string :=
  joinStrings (map (optionHtml input) (default [] (Input.options input))).

Definition textareaHtml (input : Input.t) : string :=
  nl ++ "      " ++ ToString (label input) ++
  nl ++ "      <p>" ++
  nl ++ "        <textarea" ++
  nl ++ "          type=" ++ dq ++ ToString (Input.type input) ++ dq ++
  nl ++ "          name=" ++ dq ++ ToString (Input.name input) ++ dq ++
  nl ++ "          id=" ++ dq ++ ToString (Input.id input) ++ dq ++
  nl ++ "          cols=" ++ dq ++ ToString (Input.cols input ||| Num 5) ++ dq ++
  nl ++ "          rows=" ++ dq ++ ToString (Input.rows input ||| Num 5) ++ dq ++
  nl ++ "          " ++ inputDisabled input ++
  nl ++ "        />" ++ ToString (Input.value input) ++ "</textarea>" ++
  nl ++ "      </p>" ++
  nl ++ "    ".

Definition selectHtml (input : Input.t) : string :=
  nl ++ "      " ++ ToString (label input) ++
  nl ++ "      <p>" ++
  nl ++ "        <select" ++
  nl ++ "          type=" ++ dq ++ ToString (Input.type input) ++ dq ++
  nl ++ "          name=" ++ dq ++ ToString (Input.name input) ++ dq ++
  nl ++ "          id=" ++ dq ++ ToString (Input.id input) ++ dq ++
  nl ++ "          value=" ++ dq ++ ToString (Input.value input) ++ dq ++
  nl ++ "          " ++ inputDisabled input ++
  nl ++ "        />" ++ options input ++ "</select>" ++
  nl ++ "      </p>" ++
  nl ++ "    ".

Definition textHtml (input : Input.t) : string :=
  nl ++ "    " ++ ToString (label input) ++
  nl ++ "    <p>" ++
  nl ++ "      <input" ++
  nl ++ "        type=" ++ dq ++ ToString (Input.type input) ++ dq ++
  nl ++ "        name=" ++ dq ++ ToString (Input.name input) ++ dq ++
  nl ++ "        id=" ++ dq ++ ToString (Input.id input) ++ dq ++
  nl ++ "        placeholder=" ++ dq ++ ToString (Input.placeholder input) ++ dq ++
  nl ++ "        value=" ++ dq ++ ToString (Input.value input) ++ dq ++
  nl ++ "        maxlength=" ++ dq ++ ToString (Input.maxLength input) ++ dq ++
  nl ++ "        " ++ inputDisabled input ++
  nl ++ "      />" ++
  nl ++ "    </p>" ++
  nl ++ "  ".

Definition getInputHtmlforPrompt (input : Input.t) : string :=
  if strict_eq (Input.type input) (Str "textarea") then textareaHtml input
  else if strict_eq (Input.type input) (Str "select") then selectHtml input
  else textHtml input.

(** ** Validator: [getResultsAfterValidations] *)

(** the message pushed for a rule whose element is not in the page *)
Definition missingMessage (validation : Validation.t) : prim :=
  Str ("Field " ++ ToString (Validation.name validation ||| Str "")
       ++ " must not be empty." ++ cr ++ nl).

(** the [for] loop over [validations]; [errors] is the array being filled *)
Fixpoint validationLoop (document : DOM) (validations : list Validation.t)
    (errors : list prim) : completion (list prim) :=
  match validations with
  | [] => Normal errors
  | validation :: rest =>
      match getElementById document (Validation.id validation) with
      | None =>
          validationLoop document rest (errors ++ [missingMessage validation])%list
      | Some input =>
          ok ← call (Validation.validate validation) input;
          if negb (truthy ok)
          then validationLoop document rest
                 (errors ++ [Validation.messageOnFail validation])%list
          else validationLoop document rest errors
      end
  end.

(** the value stored for one input: [formatValue] is applied when it is a
    function *)
Definition inputValue (input : Input.t) (domInput : Element.t) : completion jsval :=
  match Input.formatValue input with
  | Function f => f (Element.value domInput)
  | NotCallable _ => Normal (Prim (Element.value domInput))
  end.

(** [inputs.map(input => { ... returnData[...] = inputValue })]; an entry
    that is [null] or [undefined], or whose element is not in the page,
    makes the property read throw *)
Fixpoint collectLoop (document : DOM) (inputs : list (option Input.t))
    (returnData : gmap string jsval) : completion (gmap string jsval) :=
  match inputs with
  | [] => Normal returnData
  | None :: _ => Throw TypeError
  | Some input :: rest =>
      match getElementById document (Input.id input) with
      | None => Throw TypeError
      | Some domInput =>
          v ← inputValue input domInput;
          collectLoop document rest
            (<[ToString (Input.fieldName input ||| Input.name input) := v]> returnData)
      end
  end.

Definition getResultsAfterValidations (inputs : list (option Input.t))
    (validations : list Validation.t) : DOM -> jsval -> settled * list effect :=
  fun document result =>
    match validationLoop document validations [] with
    | Throw e => (Rejected e, [ResetValidationError])
    | Normal [] =>
        (Promise_new (returnData ← collectLoop document inputs ∅;
                      Normal (Obj returnData)),
         [ResetValidationError])
    | Normal errors =>
        let errorsString := join errors in
        (Resolved result, [ResetValidationError; ShowValidationError errorsString])
    end.

(** ** LoadingNotice *)

(** [closeResult] is whatever [sweetalert2.close()] returns *)
Definition hideDismissableLoadingNotice (closeResult : jsval) (data : payload) : run :=
  {| dialogs := [];
     effects := [Close];
     promise := thenAdopting (Promise_resolve closeResult) (fun _ => Normal data) |}.

(** ** ConfirmationPrompt and InputPrompt *)

Module ConfirmOptions.
Record t : Type := {
  ev : option bool; (* the event, and whether it has [preventDefault] *)
  titleText : prim;
  type : prim;
  text : prim;
  confirmButtonText : prim;
  cancelButtonText : prim;
  showCancelButton : prim;
  showCloseButton : prim;
  returnBool : prim
}.
End ConfirmOptions.

Module PromptOptions.
Record t : Type := {
  titleText : prim;
  html : prim;
  text : prim;
  inputs : list (option Input.t);
  validations : list Validation.t
}.
End PromptOptions.

(** [_.filter(inputs, input => !!input && !!input.id && !!input.name)] *)
Definition isValidInput (input : option Input.t) : bool :=
  match input with
  | None => false
  | Some input => truthyP (Input.id input) && truthyP (Input.name input)
  end.

Fixpoint validInputs (inputs : list (option Input.t)) : list Input.t :=
  match inputs with
  | [] => []
  | Some input :: rest =>
      if isValidInput (Some input) then input :: validInputs rest
      else validInputs rest
  | None :: rest => validInputs rest
  end.

(** the [.then] callback of [promptAreYouSureBefore] *)
Definition confirmThen (returnBool : prim) (result : jsval) : completion jsval :=
  if truthyP returnBool then
    if negb (truthy result) then Normal (Prim (Bool false))
    else
      dismiss ← get result "dismiss";
      if truthy dismiss then Normal (Prim (Bool false))
      else
        value ← get result "value";
        Normal (Prim (Bool (truthy value)))
  else Normal result.

(** the [.then] callback of [getPromptedUserInput] *)
Definition promptThen (result : jsval) : completion jsval :=
  dismiss ← get result "dismiss";
  if truthy dismiss then Throw (Error "stop-execution")
  else
    value ← get result "value";
    if negb (truthy value) then Throw (Error "stop-execution")
    else get result "value".

Definition loadingConfig (titleText buttonText : prim) : Swal.t :=
  {| Swal.titleText := titleText ||| Str "Loading...";
     Swal.text := Undefined;
     Swal.type := Undefined;
     Swal.confirmButtonText := buttonText ||| Str "Continue loading in background";
     Swal.cancelButtonText := Undefined;
     Swal.showCancelButton := Undefined;
     Swal.showCloseButton := Bool true;
     Swal.html := None;
     Swal.onOpen := None;
     Swal.preConfirm := None |}.

Definition confirmConfig (o : ConfirmOptions.t) : Swal.t :=
  {| Swal.titleText := default_to (Str "Are you sure?") (ConfirmOptions.titleText o);
     Swal.text := default_to (Str "This action is irreversible!") (ConfirmOptions.text o);
     Swal.type := default_to (Str "warning") (ConfirmOptions.type o);
     Swal.confirmButtonText := default_to (Str "Yes") (ConfirmOptions.confirmButtonText o);
     Swal.cancelButtonText := default_to (Str "Cancel") (ConfirmOptions.cancelButtonText o);
     Swal.showCancelButton := default_to (Bool true) (ConfirmOptions.showCancelButton o);
     Swal.showCloseButton := default_to (Bool false) (ConfirmOptions.showCloseButton o);
     Swal.html := None;
     Swal.onOpen := None;
     Swal.preConfirm := None |}.

(** the dialog body of [getPromptedUserInput] *)
Definition inputHtml (o : PromptOptions.t) : string :=
  ToString (default_to (Str "") (PromptOptions.html o)
            ||| default_to (Str "") (PromptOptions.text o) ||| Str "")
  ++ "<br/><br/>"
  ++ joinStrings (map getInputHtmlforPrompt (validInputs (PromptOptions.inputs o))).

Definition promptConfig (o : PromptOptions.t) (firstInputId : prim) : Swal.t :=
  {| Swal.titleText := default_to (Str "User Input Needed") (PromptOptions.titleText o);
     Swal.text := Undefined;
     Swal.type := Str "info";
     Swal.confirmButtonText := Str "Submit";
     Swal.cancelButtonText := Str "Cancel";
     Swal.showCancelButton := Bool true;
     Swal.showCloseButton := Undefined;
     Swal.html := Some (inputHtml o);
     Swal.onOpen := Some (fun document =>
       match getElementById document firstInputId with
       | Some input1 => [Focus (ToString firstInputId)]
       | None => []
       end);
     Swal.preConfirm := Some (getResultsAfterValidations
                                (PromptOptions.inputs o)
                                (PromptOptions.validations o)) |}.

Section Widget.

(** the dialog widget: how the promise of [sweetalert2(config)] settles *)
Variable sweetalert2 : Swal.t -> settled.

Definition showDismissableLoadingNotice (titleText buttonText : prim) : run :=
  {| dialogs := [loadingConfig titleText buttonText];
     effects := [];
     promise := sweetalert2 (loadingConfig titleText buttonText) |}.

Definition promptAreYouSureBefore (o : ConfirmOptions.t) : run :=
  {| dialogs := [confirmConfig o];
     effects := match ConfirmOptions.ev o with
                | Some true => [PreventDefault]
                | _ => []
                end;
     promise := then_ (sweetalert2 (confirmConfig o))
                      (confirmThen (default_to (Bool false) (ConfirmOptions.returnBool o))) |}.

Definition getPromptedUserInput (o : PromptOptions.t) : run :=
  match validInputs (PromptOptions.inputs o) with
  | [] =>
      {| dialogs := [];
         effects := [];
         promise := Promise_reject
                      (Str "No valid inputs passed to getPromptedUserInput().") |}
  | first :: _ =>
      let firstInputId := Input.id first in
      {| dialogs := [promptConfig o firstInputId];
         effects := [];
         promise := then_ (sweetalert2 (promptConfig o firstInputId)) promptThen |}
  end.

End Widget.

(** ** Reference definitions used to state the properties *)

(** [needle] occurs in [hay] *)
Definition contains (needle hay : string) : Prop :=
  exists before after, hay = before ++ needle ++ after.

(** an entry with both an id and a name *)
Definition hasIdAndName (input : option Input.t) : Prop :=
  exists d, input = Some d /\
            truthyP (Input.id d) = true /\ truthyP (Input.name d) = true.

(** the field blocks of a descriptor list, entry by entry: the block of the
    entry when it has an id and a name, nothing otherwise *)
Fixpoint fieldBlocks (inputs : list (option Input.t)) : list string :=
  match inputs with
  | [] => []
  | Some d :: rest =>
      if truthyP (Input.id d) && truthyP (Input.name d)
      then getInputHtmlforPrompt d :: fieldBlocks rest
      else fieldBlocks rest
  | None :: rest => fieldBlocks rest
  end.

(** the lead-in of the dialog body: [html] when set, else [text] when set,
    else nothing *)
Definition leadIn (o : PromptOptions.t) : string :=
  if truthyP (PromptOptions.html o) then ToString (PromptOptions.html o)
  else if truthyP (PromptOptions.text o) then ToString (PromptOptions.text o)
  else "".

(** the name a generated message shows: the rule's name when it has one *)
Definition shownName (validation : Validation.t) : string :=
  if truthyP (Validation.name validation)
  then ToString (Validation.name validation) else "".

(** [tail] ends [s] *)
Definition endsWith (tail s : string) : Prop :=
  exists before, s = before ++ tail.

(** the messages a pass over the rules records, rule by rule *)
Inductive recorded (document : DOM) : list Validation.t -> list prim -> Prop :=
| recorded_nil : recorded document [] []
| recorded_absent validation rest errors :
    getElementById document (Validation.id validation) = None ->
    recorded document rest errors ->
    recorded document (validation :: rest)
             (Str ("Field " ++ shownName validation ++ " must not be empty."
                   ++ cr ++ nl) :: errors)
| recorded_fail validation rest errors element verdict :
    getElementById document (Validation.id validation) = Some element ->
    call (Validation.validate validation) element = Normal verdict ->
    truthy verdict = false ->
    recorded document rest errors ->
    recorded document (validation :: rest)
             (Validation.messageOnFail validation :: errors)
| recorded_pass validation rest errors element verdict :
    getElementById document (Validation.id validation) = Some element ->
    call (Validation.validate validation) element = Normal verdict ->
    truthy verdict = true ->
    recorded document rest errors ->
    recorded document (validation :: rest) errors.

(** the aggregation of section 4.5 step 4, over the retained descriptors *)
Definition retainedResults (document : DOM) (inputs : list (option Input.t))
    : settled :=
  Promise_new (returnData ← collectLoop document (map Some (validInputs inputs)) ∅;
               Normal (Obj returnData)).

(** a [formatValue] that acts as [Number] on strings of decimal digits and
    leaves every other value as it is *)
Definition digitsToNumber (raw : prim) : completion jsval :=
  match raw with
  | Str s => match NilEmpty.uint_of_string s with
             | Some digits => Normal (Prim (Num (Z.of_uint digits)))
             | None => Normal (Prim raw)
             end
  | _ => Normal (Prim raw)
  end.

(** ** Example data *)

(** a descriptor with the given id, name, type, value and formatter, and
    nothing else set *)
Definition descriptor (id name type value : prim)
    (formatValue : callable prim jsval) : Input.t :=
  {| Input.id := id; Input.name := name; Input.fieldName := Undefined;
     Input.type := type; Input.value := value; Input.placeholder := Undefined;
     Input.label := Undefined; Input.disabled := Undefined;
     Input.cols := Undefined; Input.rows := Undefined;
     Input.maxLength := Undefined; Input.options := None;
     Input.formatValue := formatValue |}.

(** [{ id: 'a', name: 'amount', type: 'text', formatValue: ... }] *)
Definition amountField : Input.t :=
  descriptor (Str "a") (Str "amount") (Str "text") Undefined (Function digitsToNumber).

(** [{ id: 'b', type: 'text' }]: no name *)
Definition namelessField : Input.t :=
  descriptor (Str "b") Undefined (Str "text") Undefined (NotCallable Undefined).

(** [{ name: 'c', type: 'text' }]: no id *)
Definition idlessField : Input.t :=
  descriptor Undefined (Str "c") (Str "text") Undefined (NotCallable Undefined).

(** [{ id: 'a', name: 'a', type }] *)
Definition plainField (type : prim) : Input.t :=
  descriptor (Str "a") (Str "a") type Undefined (NotCallable Undefined).

Definition colourOptions : list SelectOption.t :=
  [ {| SelectOption.value := Str "r"; SelectOption.name := Str "Red";
       SelectOption.disabled := Undefined |};
    {| SelectOption.value := Str "g"; SelectOption.name := Str "Green";
       SelectOption.disabled := Undefined |} ].

(** [{ id: 'c', name: 'colour', type: 'select', value: 'g', options }] *)
Definition colourField : Input.t :=
  {| Input.id := Str "c"; Input.name := Str "colour"; Input.fieldName := Undefined;
     Input.type := Str "select"; Input.value := Str "g";
     Input.placeholder := Undefined; Input.label := Undefined;
     Input.disabled := Undefined; Input.cols := Undefined; Input.rows := Undefined;
     Input.maxLength := Undefined; Input.options := Some colourOptions;
     Input.formatValue := NotCallable Undefined |}.

(** the page while the dialog for [amountField] is open and '42' was typed *)
Definition pageWithAmount : DOM :=
  {[ "a" := {| Element.value := Str "42" |} ]}.


(** the page while field 'a' is still empty *)
Definition pageWithEmpty : DOM :=
  {[ "a" := {| Element.value := Str "" |} ]}.

(** [el => el.value.length > 0] *)
Definition nonEmpty (el : Element.t) : completion jsval :=
  match Element.value el with
  | Str s => Normal (Prim (Bool (0 <? Z.of_nat (String.length s))))
  | Undefined | Null => Throw TypeError
  | _ => Normal (Prim (Bool false))
  end.

(** [{ id: 'a', validate: el => el.value.length > 0, messageOnFail: 'required' }] *)
Definition requiredRule : Validation.t :=
  {| Validation.id := Str "a"; Validation.name := Undefined;
     Validation.validate := Function nonEmpty;
     Validation.messageOnFail := Str "required" |}.

Definition promptOptions (inputs : list (option Input.t)) : PromptOptions.t :=
  {| PromptOptions.titleText := Undefined; PromptOptions.html := Undefined;
     PromptOptions.text := Str "How much?"; PromptOptions.inputs := inputs;
     PromptOptions.validations := [] |}.

(** [{ returnBool }] *)
Definition confirmOptions (returnBool : prim) : ConfirmOptions.t :=
  {| ConfirmOptions.ev := None; ConfirmOptions.titleText := Undefined;
     ConfirmOptions.type := Undefined; ConfirmOptions.text := Undefined;
     ConfirmOptions.confirmButtonText := Undefined;
     ConfirmOptions.cancelButtonText := Undefined;
     ConfirmOptions.showCancelButton := Undefined;
     ConfirmOptions.showCloseButton := Bool true;
     ConfirmOptions.returnBool := returnBool |}.

(** a widget whose dialogs all end with the given outcome *)
Definition endingWith (outcome : jsval) : Swal.t -> settled :=
  fun _ => Resolved outcome.

(** [{ dismiss: 'close' }]: the close button was used *)
Definition closedOutcome : jsval :=
  Obj {[ "dismiss" := Prim (Str "close") ]}.

(** [{ value: { amount: 42 } }] *)
Definition confirmedOutcome : jsval :=
  Obj {[ "value" := Obj {[ "amount" := Prim (Num 42) ]} ]}.

(** [{ rows: 3 }]: a payload that is not a thenable *)
Definition loadedData : payload :=
  {| payloadValue := Obj {[ "rows" := Prim (Num 3) ]}; payloadThen := None |}.

(** [{ then(resolve) { resolve(5) } }] *)
Definition thenableFive : payload :=
  {| payloadValue := Obj ∅; payloadThen := Some (Resolved (Prim (Num 5))) |}.

(** [Promise.reject(new Error('failed'))] *)
Definition rejectedPromise : payload :=
  {| payloadValue := Obj ∅; payloadThen := Some (Rejected (Error "failed")) |}.

(** ** Further reference definitions and example data *)

(** the key under which the hook stores the value of a descriptor *)
Definition resultKey (input : Input.t) : string :=
  ToString (Input.fieldName input ||| Input.name input).

(** an entry the aggregation step can read: a descriptor whose element is
    in the page and whose formatter, if any, returns *)
Definition collectable (document : DOM) (entry : option Input.t) : Prop :=
  exists d element v,
    entry = Some d /\
    getElementById document (Input.id d) = Some element /\
    inputValue d element = Normal v.

(** [undefined] or [null] *)
Definition nullish (p : prim) : Prop := p = Undefined \/ p = Null.

(** [{ id: 'n', name: 'notes', type: 'textarea', cols: 0 }] *)
Definition notesField : Input.t :=
  {| Input.id := Str "n"; Input.name := Str "notes"; Input.fieldName := Undefined;
     Input.type := Str "textarea"; Input.value := Undefined;
     Input.placeholder := Undefined; Input.label := Undefined;
     Input.disabled := Undefined; Input.cols := Num 0; Input.rows := Undefined;
     Input.maxLength := Undefined; Input.options := None;
     Input.formatValue := NotCallable Undefined |}.

(** [{ name: 'n', type: 'text', label: 'Name' }]: a label and no id *)
Definition labelledField : Input.t :=
  {| Input.id := Undefined; Input.name := Str "n"; Input.fieldName := Undefined;
     Input.type := Str "text"; Input.value := Undefined;
     Input.placeholder := Undefined; Input.label := Str "Name";
     Input.disabled := Undefined; Input.cols := Undefined; Input.rows := Undefined;
     Input.maxLength := Undefined; Input.options := None;
     Input.formatValue := NotCallable Undefined |}.

(** [{ value: 0 }]: an option without a name whose value is the number 0 *)
Definition zeroOption : SelectOption.t :=
  {| SelectOption.value := Num 0; SelectOption.name := Undefined;
     SelectOption.disabled := Undefined |}.

(** [{ value: 7 }] *)
Definition sevenOption : SelectOption.t :=
  {| SelectOption.value := Num 7; SelectOption.name := Undefined;
     SelectOption.disabled := Undefined |}.

(** [{ id: 'q', name: 'qty', type: 'select', value: 0, options }] *)
Definition quantityField : Input.t :=
  {| Input.id := Str "q"; Input.name := Str "qty"; Input.fieldName := Undefined;
     Input.type := Str "select"; Input.value := Num 0;
     Input.placeholder := Undefined; Input.label := Undefined;
     Input.disabled := Undefined; Input.cols := Undefined; Input.rows := Undefined;
     Input.maxLength := Undefined; Input.options := Some [zeroOption; sevenOption];
     Input.formatValue := NotCallable Undefined |}.

(** [{ id: 'a2', name: 'raw', fieldName: 'amount', type: 'text' }]: stores
    under the key of [amountField] *)
Definition rawAmountField : Input.t :=
  {| Input.id := Str "a2"; Input.name := Str "raw"; Input.fieldName := Str "amount";
     Input.type := Str "text"; Input.value := Undefined;
     Input.placeholder := Undefined; Input.label := Undefined;
     Input.disabled := Undefined; Input.cols := Undefined; Input.rows := Undefined;
     Input.maxLength := Undefined; Input.options := None;
     Input.formatValue := NotCallable Undefined |}.

(** a [formatValue] that always throws *)
Definition failingFormat (raw : prim) : completion jsval :=
  Throw (Error "bad amount").

(** [{ id: 'a', name: 'amount', formatValue: () => { throw ... } }] *)
Definition brokenAmountField : Input.t :=
  descriptor (Str "a") (Str "amount") (Str "text") Undefined (Function failingFormat).

(** the page with fields 'a' ('42') and 'a2' ('7') *)
Definition pageWithTwoAmounts : DOM :=
  <[ "a2" := {| Element.value := Str "7" |} ]> pageWithAmount.

(** [{ id: 'a', validate: el => el.value.length > 0 }]: no message *)
Definition silentRule : Validation.t :=
  {| Validation.id := Str "a"; Validation.name := Undefined;
     Validation.validate := Function nonEmpty;
     Validation.messageOnFail := Undefined |}.

(** [{ id: 'a', messageOnFail: 'broken' }]: no [validate] function *)
Definition brokenRule : Validation.t :=
  {| Validation.id := Str "a"; Validation.name := Undefined;
     Validation.validate := NotCallable Undefined;
     Validation.messageOnFail := Str "broken" |}.

(** [{ titleText: '' }] *)
Definition emptyTitleConfirm : ConfirmOptions.t :=
  {| ConfirmOptions.ev := None; ConfirmOptions.titleText := Str "";
     ConfirmOptions.type := Undefined; ConfirmOptions.text := Undefined;
     ConfirmOptions.confirmButtonText := Undefined;
     ConfirmOptions.cancelButtonText := Undefined;
     ConfirmOptions.showCancelButton := Undefined;
     ConfirmOptions.showCloseButton := Undefined;
     ConfirmOptions.returnBool := Undefined |}.

(** ** Basic facts about values and strings *)

Lemma strict_eq_true (a b : prim) : strict_eq a b = true <-> a = b.
Proof.
  split.
  - destruct a, b; simpl; intros H; try discriminate; try reflexivity.
    + apply Bool.eqb_prop in H. by subst.
    + apply Z.eqb_eq in H. by subst.
    + apply String.eqb_eq in H. by subst.
  - intros <-. destruct a as [| |x|x|x]; simpl; try reflexivity.
    + by destruct x.
    + apply Z.eqb_refl.
    + apply String.eqb_refl.
Qed.

Lemma strict_eq_false (a b : prim) : strict_eq a b = false <-> a <> b.
Proof.
  rewrite <- strict_eq_true. destruct (strict_eq a b); split; congruence.
Qed.

Lemma append_assoc (a b c : string) : (a ++ b) ++ c = a ++ b ++ c.
Proof.
  induction a as [|ch a IH]; [reflexivity |].
  change (String ch ((a ++ b) ++ c) = String ch (a ++ b ++ c)). by rewrite IH.
Qed.

Lemma contains_here (needle after : string) : contains needle (needle ++ after).
Proof. exists "", after. reflexivity. Qed.

Lemma contains_skip (needle piece hay : string) :
  contains needle hay -> contains needle (piece ++ hay).
Proof.
  intros (before & after & ->). exists (piece ++ before), after.
  by rewrite append_assoc.
Qed.

Lemma default_to_truthy (d x : prim) :
  truthyP d = false -> truthyP (default_to d x) = truthyP x.
Proof. intros Hd. destruct x; simpl; try reflexivity. exact Hd. Qed.

Lemma default_to_falsy_or (x y : prim) :
  default_to (Str "") x ||| y = if truthyP x then x else y.
Proof. unfold or_else. by destruct x. Qed.

Lemma endsWith_skip (tail piece s : string) :
  endsWith tail s -> endsWith tail (piece ++ s).
Proof.
  intros (before & ->). exists (piece ++ before). by rewrite append_assoc.
Qed.

(** walk down a template piece by piece until [lead] is all that precedes
    the text looked for *)
Ltac skip_to_tail lead :=
  first [ by exists lead | apply endsWith_skip; skip_to_tail lead ].

Ltac skip_to_needle lead :=
  first [ by eexists lead, _ | apply contains_skip; skip_to_needle lead ].

(** ** InputPrompt: filtering and rendering *)

Lemma validInputs_fieldBlocks (inputs : list (option Input.t)) :
  map getInputHtmlforPrompt (validInputs inputs) = fieldBlocks inputs.
Proof.
  induction inputs as [|[d|] rest IH]; simpl; [reflexivity | | exact IH].
  destruct (truthyP (Input.id d) && truthyP (Input.name d)); simpl; by rewrite IH.
Qed.

Lemma validInputs_none (inputs : list (option Input.t)) :
  (forall input, input ∈ inputs -> ~ hasIdAndName input) ->
  validInputs inputs = [].
Proof.
  induction inputs as [|[d|] rest IH]; intros Hnone; simpl.
  - reflexivity.
  - destruct (truthyP (Input.id d) && truthyP (Input.name d)) eqn:Hd.
    + apply andb_prop in Hd as [Hid Hname].
      exfalso. apply (Hnone (Some d)); [by left | by exists d].
    + apply IH. intros input Hin. apply Hnone. by right.
  - apply IH. intros input Hin. apply Hnone. by right.
Qed.

Lemma validInputs_some (inputs : list (option Input.t)) :
  (exists input, input ∈ inputs /\ hasIdAndName input) ->
  validInputs inputs <> [].
Proof.
  intros (input & Hin & d & -> & Hid & Hname).
  induction inputs as [|[d'|] rest IH]; simpl.
  - by apply elem_of_nil in Hin.
  - apply elem_of_cons in Hin as [Heq | Hin].
    + injection Heq as <-. by rewrite Hid, Hname.
    + destruct (truthyP (Input.id d') && truthyP (Input.name d')); [done | by apply IH].
  - apply elem_of_cons in Hin as [Heq | Hin]; [discriminate | by apply IH].
Qed.

Lemma validInputs_all_valid (inputs : list (option Input.t)) :
  Forall hasIdAndName inputs -> map Some (validInputs inputs) = inputs.
Proof.
  induction 1 as [|input rest (d & -> & Hid & Hname) _ IH]; simpl; [reflexivity |].
  rewrite Hid, Hname. simpl. by rewrite IH.
Qed.

Lemma inputHtml_leadIn (o : PromptOptions.t) :
  inputHtml o = leadIn o ++ "<br/><br/>" ++ joinStrings (fieldBlocks (PromptOptions.inputs o)).
Proof.
  unfold inputHtml, leadIn. rewrite validInputs_fieldBlocks. f_equal.
  rewrite default_to_falsy_or.
  destruct (truthyP (PromptOptions.html o)) eqn:Hhtml.
  - unfold or_else. by rewrite Hhtml.
  - rewrite default_to_falsy_or.
    by destruct (truthyP (PromptOptions.text o)).
Qed.

(** C2: a descriptor list in which no entry has both a truthy id and a
    truthy name makes [getPromptedUserInput] return a promise rejected with
    the description string "No valid inputs passed to
    getPromptedUserInput()." without firing a dialog or making any other
    call. *)
Theorem no_valid_inputs_rejects (sweetalert2 : Swal.t -> settled)
    (o : PromptOptions.t) :
  (forall input, input ∈ PromptOptions.inputs o -> ~ hasIdAndName input) ->
  getPromptedUserInput sweetalert2 o =
    {| dialogs := [];
       effects := [];
       promise := Rejected
         (Value (Prim (Str "No valid inputs passed to getPromptedUserInput()."))) |}.
Proof.
  intros Hnone. unfold getPromptedUserInput.
  by rewrite (validInputs_none _ Hnone).
Qed.

(** C5: when at least one entry has both an id and a name, exactly one
    dialog is fired and its body is the lead-in (html, else text, else
    nothing), the separator, and then the field blocks of the entries taken
    one by one in list order: the block of the entry when it has an id and a
    name, nothing for an entry that lacks one of them. *)
Theorem dialog_body_blocks (sweetalert2 : Swal.t -> settled)
    (o : PromptOptions.t) :
  (exists input, input ∈ PromptOptions.inputs o /\ hasIdAndName input) ->
  exists config,
    dialogs (getPromptedUserInput sweetalert2 o) = [config] /\
    Swal.html config =
      Some (leadIn o ++ "<br/><br/>"
            ++ joinStrings (fieldBlocks (PromptOptions.inputs o))).
Proof.
  intros Hsome. apply validInputs_some in Hsome.
  unfold getPromptedUserInput.
  destruct (validInputs (PromptOptions.inputs o)) as [|first rest] eqn:Hvalid;
    [done |].
  eexists. split; [reflexivity |]. simpl. f_equal. apply inputHtml_leadIn.
Qed.

(** ** ConfirmationPrompt and the outcome of the dialog *)

Lemma confirmThen_normal (returnBool : prim) (result : jsval) :
  exists v, confirmThen returnBool result = Normal v.
Proof.
  unfold confirmThen. destruct (truthyP returnBool); [| by eexists].
  destruct result as [[| |b|n|s]|fields]; simpl; try by eexists.
  - destruct b; simpl; by eexists.
  - destruct (negb (n =? 0)); simpl; by eexists.
  - destruct (negb (String.eqb s "")); simpl; by eexists.
  - destruct (truthy (default (Prim Undefined) (fields !! "dismiss"))); by eexists.
Qed.

Lemma confirmThen_bool (returnBool : prim) (result dismiss value : jsval) :
  truthyP returnBool = true ->
  get result "dismiss" = Normal dismiss ->
  get result "value" = Normal value ->
  confirmThen returnBool result =
    Normal (Prim (Bool (truthy result && negb (truthy dismiss) && truthy value))).
Proof.
  intros Hset Hdismiss Hvalue. unfold confirmThen. rewrite Hset.
  destruct (truthy result) eqn:Hresult; simpl; [| reflexivity].
  rewrite Hdismiss. simpl.
  destruct (truthy dismiss); simpl; [reflexivity |]. by rewrite Hvalue.
Qed.

Lemma get_not_nullish (result v : jsval) (k : string) :
  get result k = Normal v -> result <> Prim Null /\ result <> Prim Undefined.
Proof. destruct result as [[]|]; simpl; intros H; split; congruence. Qed.

Lemma get_nullish (result : jsval) (k : string) :
  result = Prim Null \/ result = Prim Undefined \/ exists v, get result k = Normal v.
Proof. destruct result as [[]|]; simpl; eauto. Qed.

Lemma get_of_falsy (result v : jsval) (k : string) :
  truthy result = false -> get result k = Normal v -> v = Prim Undefined.
Proof.
  destruct result as [[]|]; simpl; intros Hf H; try discriminate; congruence.
Qed.

(** C3: with [returnBool] set, [promptAreYouSureBefore] resolves with a
    boolean that is true exactly when the outcome is neither null nor
    undefined, its [dismiss] field is falsy and its [value] field is truthy,
    and that is false for every outcome with a truthy [dismiss] field,
    whatever the dismissal reason; with [returnBool] unset it resolves with
    the outcome as it came from the dialog. *)
Theorem confirm_returnBool (sweetalert2 : Swal.t -> settled)
    (o : ConfirmOptions.t) (result : jsval) :
  sweetalert2 (confirmConfig o) = Resolved result ->
  (truthyP (ConfirmOptions.returnBool o) = true ->
   exists b,
     promise (promptAreYouSureBefore sweetalert2 o) = Resolved (Prim (Bool b)) /\
     (b = true <->
      result <> Prim Null /\ result <> Prim Undefined /\
      exists dismiss value,
        get result "dismiss" = Normal dismiss /\ truthy dismiss = false /\
        get result "value" = Normal value /\ truthy value = true) /\
     (forall dismiss,
        get result "dismiss" = Normal dismiss -> truthy dismiss = true ->
        b = false)) /\
  (truthyP (ConfirmOptions.returnBool o) = false ->
   promise (promptAreYouSureBefore sweetalert2 o) = Resolved result).
Proof.
  intros Hswal. unfold promptAreYouSureBefore. simpl. rewrite Hswal. simpl.
  split; intros Hflag.
  - assert (Hset : truthyP (default_to (Bool false) (ConfirmOptions.returnBool o)) = true)
      by (by rewrite default_to_truthy).
    destruct (get_nullish result "dismiss") as [-> | [-> | [dismiss Hdismiss]]].
    + exists false. unfold confirmThen. rewrite Hset. simpl.
      split; [reflexivity |]. split; [| discriminate].
      split; [discriminate | intros (Hnull & _); congruence].
    + exists false. unfold confirmThen. rewrite Hset. simpl.
      split; [reflexivity |]. split; [| discriminate].
      split; [discriminate | intros (_ & Hundef & _); congruence].
    + destruct (get_nullish result "value") as [-> | [-> | [value Hvalue]]];
        try discriminate.
      exists (truthy result && negb (truthy dismiss) && truthy value).
      rewrite (confirmThen_bool _ _ _ _ Hset Hdismiss Hvalue).
      split; [reflexivity |]. split.
      * split.
        -- intros Hb. apply andb_prop in Hb as [Hb Hv].
           apply andb_prop in Hb as [Hr Hd]. apply negb_true_iff in Hd.
           destruct (get_not_nullish _ _ _ Hdismiss) as [Hn Hu].
           repeat split; [exact Hn | exact Hu |]. by exists dismiss, value.
        -- intros (_ & _ & dismiss' & value' & Hd' & Hfalsy & Hv' & Htruthy).
           rewrite Hdismiss in Hd'. injection Hd' as <-.
           rewrite Hvalue in Hv'. injection Hv' as <-.
           rewrite Hfalsy, Htruthy.
           destruct (truthy result) eqn:Hr; [reflexivity |].
           rewrite (get_of_falsy _ _ _ Hr Hvalue) in Htruthy. discriminate.
      * intros dismiss' Hd' Htruthy. rewrite Hdismiss in Hd'. injection Hd' as <-.
        rewrite Htruthy. by destruct (truthy result).
  - unfold confirmThen.
    assert (Hunset : truthyP (default_to (Bool false) (ConfirmOptions.returnBool o)) = false)
      by (by rewrite default_to_truthy).
    by rewrite Hunset.
Qed.

Lemma promptThen_halts (result dismiss value : jsval) :
  get result "dismiss" = Normal dismiss ->
  get result "value" = Normal value ->
  truthy dismiss = true \/ truthy value = false ->
  promptThen result = Throw (Error "stop-execution").
Proof.
  intros Hdismiss Hvalue Hhalt. unfold promptThen. rewrite Hdismiss. simpl.
  destruct (truthy dismiss) eqn:Hd; [reflexivity |].
  rewrite Hvalue. simpl.
  destruct Hhalt as [Hd' | Hv]; [discriminate | by rewrite Hv].
Qed.

Lemma promptThen_value (result dismiss value : jsval) :
  get result "dismiss" = Normal dismiss ->
  get result "value" = Normal value ->
  truthy dismiss = false -> truthy value = true ->
  promptThen result = Normal value.
Proof.
  intros Hdismiss Hvalue Hd Hv. unfold promptThen.
  rewrite Hdismiss. simpl. rewrite Hd, Hvalue. simpl. by rewrite Hv.
Qed.

(** C4: once the dialog of [getPromptedUserInput] has been fired and
    resolves with an outcome object, an outcome whose [dismiss] field is
    truthy or whose [value] field is falsy makes the returned promise
    reject with the error "stop-execution", and an outcome whose [dismiss]
    field is falsy and whose [value] field is truthy makes it resolve with
    that value; [promptAreYouSureBefore] resolves for every outcome of its
    dialog, dismissals included. *)
Theorem dismissal_handling (sweetalert2 : Swal.t -> settled)
    (o : PromptOptions.t) (config : Swal.t) (result dismiss value : jsval) :
  dialogs (getPromptedUserInput sweetalert2 o) = [config] ->
  sweetalert2 config = Resolved result ->
  get result "dismiss" = Normal dismiss ->
  get result "value" = Normal value ->
  (truthy dismiss = true \/ truthy value = false ->
   promise (getPromptedUserInput sweetalert2 o) = Rejected (Error "stop-execution")) /\
  (truthy dismiss = false -> truthy value = true ->
   promise (getPromptedUserInput sweetalert2 o) = Resolved value) /\
  (forall (c : ConfirmOptions.t) (outcome : jsval),
     sweetalert2 (confirmConfig c) = Resolved outcome ->
     exists v, promise (promptAreYouSureBefore sweetalert2 c) = Resolved v).
Proof.
  intros Hfired Hswal Hdismiss Hvalue. unfold getPromptedUserInput in *.
  destruct (validInputs (PromptOptions.inputs o)) as [|first rest];
    [discriminate |].
  simpl in *. injection Hfired as <-. rewrite Hswal. simpl.
  repeat split.
  - intros Hhalt. by rewrite (promptThen_halts _ _ _ Hdismiss Hvalue Hhalt).
  - intros Hd Hv. by rewrite (promptThen_value _ _ _ Hdismiss Hvalue Hd Hv).
  - intros c outcome Hc. rewrite Hc. simpl.
    destruct (confirmThen_normal
                (default_to (Bool false) (ConfirmOptions.returnBool c)) outcome)
      as [v ->].
    by exists v.
Qed.

(** ** LoadingNotice *)

Lemma then_thenAdopting (p : settled) (f : jsval -> completion jsval) :
  then_ p f =
  thenAdopting p (fun v => r ← f v;
                           Normal {| payloadValue := r; payloadThen := None |}).
Proof. destruct p as [v|e]; simpl; [| reflexivity]. by destruct (f v). Qed.

(** C9 as stated fails: a payload that is a thenable is adopted, not passed
    on.  For [{ then(resolve) { resolve(5) } }] the promise resolves with 5
    and not with the object that was passed in, and for a rejected promise
    it rejects. *)
Lemma hide_adopts_thenable_payload :
  promise (hideDismissableLoadingNotice (Prim Undefined) thenableFive)
    = Resolved (Prim (Num 5)) /\
  promise (hideDismissableLoadingNotice (Prim Undefined) thenableFive)
    <> Resolved (payloadValue thenableFive) /\
  promise (hideDismissableLoadingNotice (Prim Undefined) rejectedPromise)
    = Rejected (Error "failed").
Proof. repeat split. discriminate. Qed.

(** C9, amended: for every payload that is not a thenable,
    [hideDismissableLoadingNotice] closes the widget, fires no dialog, and
    resolves with exactly the value it was given, whatever
    [sweetalert2.close()] returned. *)
Theorem hide_resolves_with_payload (closeResult : jsval) (data : payload) :
  payloadThen data = None ->
  hideDismissableLoadingNotice closeResult data =
    {| dialogs := []; effects := [Close];
       promise := Resolved (payloadValue data) |}.
Proof.
  intros Hplain. unfold hideDismissableLoadingNotice, thenAdopting, resolveWith.
  simpl. by rewrite Hplain.
Qed.

(** ** Validator *)

Lemma validationLoop_recorded (document : DOM) (validations : list Validation.t)
    (errors : list prim) :
  recorded document validations errors ->
  forall acc, validationLoop document validations acc = Normal (acc ++ errors)%list.
Proof.
  induction 1 as [| validation rest errors Habsent _ IH
                  | validation rest errors element verdict Hfound Hcall Hfalsy _ IH
                  | validation rest errors element verdict Hfound Hcall Htruthy _ IH];
    intros acc; simpl.
  - by rewrite app_nil_r.
  - rewrite Habsent, IH. rewrite <- app_assoc. simpl.
    unfold missingMessage, shownName, or_else.
    by destruct (truthyP (Validation.name validation)).
  - rewrite Hfound, Hcall. simpl. rewrite Hfalsy. simpl.
    rewrite IH. by rewrite <- app_assoc.
  - rewrite Hfound, Hcall. simpl. rewrite Htruthy. simpl. apply IH.
Qed.

(** a pass records some list of messages as soon as every [validate] that
    is reached returns *)
Lemma recorded_total (document : DOM) (validations : list Validation.t) :
  (forall validation element,
     validation ∈ validations ->
     getElementById document (Validation.id validation) = Some element ->
     exists verdict, call (Validation.validate validation) element = Normal verdict) ->
  exists errors, recorded document validations errors.
Proof.
  induction validations as [|validation rest IH]; intros Hreturns.
  - exists []. constructor.
  - destruct IH as [errors Hrest].
    { intros v el Hin. apply Hreturns. by right. }
    destruct (getElementById document (Validation.id validation))
      as [element|] eqn:Hfound.
    + destruct (Hreturns validation element) as [verdict Hcall];
        [by left | exact Hfound |].
      destruct (truthy verdict) eqn:Hverdict.
      * exists errors. by eapply recorded_pass.
      * eexists. by eapply recorded_fail.
    + eexists. by eapply recorded_absent.
Qed.

(** C8: when a pass over the rules in list order records at least one
    message (the generated "Field <name> must not be empty." line for a
    rule whose element is not in the page, the rule's [messageOnFail] for a
    rule whose [validate] returns a falsy value, nothing for a rule that
    passes), the hook clears the previous validation error, shows the
    recorded messages joined in that order, and resolves with the value it
    was called with: no field is read and no aggregated object is built. *)
Theorem validation_errors_surface (inputs : list (option Input.t))
    (validations : list Validation.t) (document : DOM) (result : jsval)
    (errors : list prim) :
  recorded document validations errors ->
  errors <> [] ->
  getResultsAfterValidations inputs validations document result =
    (Resolved result,
     [ResetValidationError; ShowValidationError (join errors)]).
Proof.
  intros Hrec Hsome. unfold getResultsAfterValidations.
  rewrite (validationLoop_recorded _ _ _ Hrec []). simpl.
  by destruct errors.
Qed.

(** ** FieldRenderer *)

Lemma getInputHtmlforPrompt_select (input : Input.t) :
  Input.type input = Str "select" ->
  getInputHtmlforPrompt input = selectHtml input.
Proof. intros Htype. unfold getInputHtmlforPrompt. by rewrite Htype. Qed.

Lemma getInputHtmlforPrompt_text (input : Input.t) :
  Input.type input <> Str "textarea" -> Input.type input <> Str "select" ->
  getInputHtmlforPrompt input = textHtml input.
Proof.
  intros Hta Hsel. unfold getInputHtmlforPrompt.
  apply strict_eq_false in Hta, Hsel. by rewrite Hta, Hsel.
Qed.

Lemma optionHtml_selected (input : Input.t) (option : SelectOption.t) :
  optionHtml input option =
    optionTemplate option
      (if decide (SelectOption.value option = Input.value input)
       then "selected" else "")
      (optionDisabled option).
Proof.
  unfold optionHtml, optionSelected.
  destruct (decide (SelectOption.value option = Input.value input)) as [Heq | Hne].
  - rewrite Heq. by rewrite (proj2 (strict_eq_true _ _) eq_refl).
  - assert (Hne' : Input.value input <> SelectOption.value option) by congruence.
    apply strict_eq_false in Hne'. by rewrite Hne'.
Qed.

(** C6: the markup of a [select] descriptor holds, between the end of the
    opening tag and the closing tag of the select element, one option
    element per entry of [options], in order.  The element of an entry is
    the text written out below: its third line is the attribute [selected]
    exactly when the entry's value is the descriptor's value and is empty
    otherwise, so that no element carries [selected] when no entry's value
    is the descriptor's value. *)
Theorem select_options_selected (input : Input.t) :
  Input.type input = Str "select" ->
  let element (option : SelectOption.t) (selected : string) :=
    "<option" ++
    nl ++ "          value=" ++ dq
       ++ (if truthyP (SelectOption.value option)
           then ToString (SelectOption.value option) else "") ++ dq ++
    nl ++ "          " ++ selected ++
    nl ++ "          "
       ++ (if truthyP (SelectOption.disabled option) then "disabled" else "") ++
    nl ++ "        >" ++
    nl ++ "          "
       ++ (if truthyP (SelectOption.name option)
           then ToString (SelectOption.name option)
           else if truthyP (SelectOption.value option)
                then ToString (SelectOption.value option) else "") ++
    nl ++ "        </option>" in
  exists before after blocks,
    getInputHtmlforPrompt input =
      before ++ "/>" ++ joinStrings blocks ++ "</select>" ++ after /\
    Forall2
      (fun option block =>
         block = element option
                   (if decide (SelectOption.value option = Input.value input)
                    then "selected" else ""))
      (default [] (Input.options input)) blocks /\
    ((forall option, option ∈ default [] (Input.options input) ->
                     SelectOption.value option <> Input.value input) ->
     Forall2 (fun option block => block = element option "")
             (default [] (Input.options input)) blocks).
Proof.
  intros Htype element. rewrite (getInputHtmlforPrompt_select _ Htype).
  assert (Hframe : endsWith ("/>" ++ options input ++ "</select>"
                             ++ nl ++ "      </p>" ++ nl ++ "    ")
                            (selectHtml input)).
  { unfold selectHtml. skip_to_tail "        ". }
  destruct Hframe as [before Hframe].
  exists before, (nl ++ "      </p>" ++ nl ++ "    "),
         (map (optionHtml input) (default [] (Input.options input))).
  split; [exact Hframe |].
  assert (Helement : forall option,
             optionHtml input option =
             element option
               (if decide (SelectOption.value option = Input.value input)
                then "selected" else "")).
  { intros option. rewrite optionHtml_selected.
    unfold optionTemplate, optionDisabled, element, or_else.
    destruct (truthyP (SelectOption.name option)) eqn:Hname;
      destruct (truthyP (SelectOption.value option)) eqn:Hvalue;
      simpl; by rewrite ?Hname, ?Hvalue. }
  generalize (default [] (Input.options input)). intros opts. split.
  - induction opts as [|option opts IH]; simpl; constructor;
      [apply Helement | exact IH].
  - induction opts as [|option opts IH]; intros Hnone; simpl; constructor.
    + rewrite Helement.
      destruct (decide (SelectOption.value option = Input.value input)) as [Heq | _];
        [| reflexivity].
      exfalso. apply (Hnone option); [by left | exact Heq].
    + apply IH. intros o Ho. apply Hnone. by right.
Qed.

(** C10: for a descriptor rendered by the default branch (its type is
    neither 'textarea' nor 'select'), an unset [placeholder], [value] or
    [maxLength] is interpolated as it is: the markup contains the
    attribute with the text undefined between its quotes. *)
Theorem missing_attributes_print_undefined (input : Input.t) :
  Input.type input <> Str "textarea" ->
  Input.type input <> Str "select" ->
  (Input.placeholder input = Undefined ->
   contains ("placeholder=" ++ dq ++ "undefined" ++ dq)
            (getInputHtmlforPrompt input)) /\
  (Input.value input = Undefined ->
   contains ("value=" ++ dq ++ "undefined" ++ dq)
            (getInputHtmlforPrompt input)) /\
  (Input.maxLength input = Undefined ->
   contains ("maxlength=" ++ dq ++ "undefined" ++ dq)
            (getInputHtmlforPrompt input)).
Proof.
  intros Hta Hsel. rewrite (getInputHtmlforPrompt_text _ Hta Hsel).
  unfold textHtml. repeat split; intros ->; skip_to_needle "        ".
Qed.

(** ** The aggregation step *)

Lemma inputValue_function (input : Input.t) (domInput : Element.t)
    (f : prim -> completion jsval) :
  Input.formatValue input = Function f ->
  inputValue input domInput = f (Element.value domInput).
Proof. intros Hf. unfold inputValue. by rewrite Hf. Qed.

Lemma inputValue_raw (input : Input.t) (domInput : Element.t) (v : prim) :
  Input.formatValue input = NotCallable v ->
  inputValue input domInput = Normal (Prim (Element.value domInput)).
Proof. intros Hf. unfold inputValue. by rewrite Hf. Qed.

(** when every entry has an id and a name and every rule passes, the hook
    aggregates over the retained descriptors *)
Lemma hook_on_valid_inputs (inputs : list (option Input.t))
    (validations : list Validation.t) (document : DOM) (result : jsval) :
  Forall hasIdAndName inputs ->
  recorded document validations [] ->
  getResultsAfterValidations inputs validations document result =
    (retainedResults document inputs, [ResetValidationError]).
Proof.
  intros Hvalid Hrec. unfold getResultsAfterValidations, retainedResults.
  rewrite (validationLoop_recorded _ _ _ Hrec []). simpl.
  by rewrite (validInputs_all_valid _ Hvalid).
Qed.


Lemma label_unset (input : Input.t) :
  truthyP (Input.label input) = false -> ToString (label input) = "undefined".
Proof. intros Hunset. unfold label. by rewrite Hunset. Qed.

Lemma label_set (input : Input.t) :
  truthyP (Input.label input) = true -> ToString (label input) = labelBlock input.
Proof. intros Hset. unfold label. by rewrite Hset. Qed.

(** every branch starts with the interpolated [label] variable *)
Lemma getInputHtmlforPrompt_label (input : Input.t) :
  exists indent rest,
    getInputHtmlforPrompt input = nl ++ indent ++ ToString (label input) ++ rest.
Proof.
  unfold getInputHtmlforPrompt.
  destruct (strict_eq (Input.type input) (Str "textarea"));
    [| destruct (strict_eq (Input.type input) (Str "select"))];
    by eexists _, _.
Qed.

(** C7: a descriptor without a label is not rendered without label
    content: in the default, the textarea and the select branch the markup
    of [{ id: 'a', name: 'a', type }] starts with the text undefined where
    the label block would be. *)
Theorem unset_label_prints_undefined :
  label (plainField (Str "text")) = Undefined /\
  (exists rest, getInputHtmlforPrompt (plainField (Str "text")) =
                  nl ++ "    undefined" ++ nl ++ "    <p>" ++ rest) /\
  (exists rest, getInputHtmlforPrompt (plainField (Str "textarea")) =
                  nl ++ "      undefined" ++ nl ++ "      <p>" ++ rest) /\
  (exists rest, getInputHtmlforPrompt (plainField (Str "select")) =
                  nl ++ "      undefined" ++ nl ++ "      <p>" ++ rest).
Proof. repeat split; eexists; vm_compute; reflexivity. Qed.

(** ** The theorems at concrete inputs *)

Lemma not_hasIdAndName_None : ~ hasIdAndName None.
Proof. intros (d & Hd & _). discriminate. Defined.

Lemma not_hasIdAndName_nameless : ~ hasIdAndName (Some namelessField).
Proof. intros (d & Hd & _ & Hname). injection Hd as <-. discriminate. Defined.

Lemma not_hasIdAndName_idless : ~ hasIdAndName (Some idlessField).
Proof. intros (d & Hd & Hid & _). injection Hd as <-. discriminate. Defined.

Lemma hasIdAndName_amount : hasIdAndName (Some amountField).
Proof. exists amountField. repeat split. Defined.

(** [[null, { id: 'b' }, { name: 'c' }]] is rejected without a dialog *)
Lemma no_valid_inputs_rejects_witness :
  getPromptedUserInput (endingWith confirmedOutcome)
      (promptOptions [None; Some namelessField; Some idlessField]) =
    {| dialogs := [];
       effects := [];
       promise := Rejected
         (Value (Prim (Str "No valid inputs passed to getPromptedUserInput()."))) |}.
Proof.
  apply no_valid_inputs_rejects. simpl. intros input Hin.
  apply elem_of_cons in Hin as [-> | Hin]; [exact not_hasIdAndName_None |].
  apply elem_of_cons in Hin as [-> | Hin]; [exact not_hasIdAndName_nameless |].
  apply elem_of_cons in Hin as [-> | Hin]; [exact not_hasIdAndName_idless |].
  by apply elem_of_nil in Hin.
Defined.

(** [[{ id: 'a', name: 'amount' }, null, { id: 'b' }]] gives a body with
    the lead-in and the one block of the first entry *)
Lemma dialog_body_blocks_witness :
  exists config,
    dialogs (getPromptedUserInput (endingWith confirmedOutcome)
               (promptOptions [Some amountField; None; Some namelessField]))
      = [config] /\
    Swal.html config =
      Some ("How much?" ++ "<br/><br/>" ++ getInputHtmlforPrompt amountField).
Proof.
  destruct (dialog_body_blocks (endingWith confirmedOutcome)
              (promptOptions [Some amountField; None; Some namelessField]))
    as (config & Hfired & Hhtml).
  - exists (Some amountField). split; [by left | exact hasIdAndName_amount].
  - exists config. split; [exact Hfired |]. rewrite Hhtml. vm_compute. reflexivity.
Defined.

(** a dialog closed with the close button resolves [false] under
    [returnBool: true] *)
Lemma confirm_returnBool_witness :
  promise (promptAreYouSureBefore (endingWith closedOutcome)
             (confirmOptions (Bool true)))
    = Resolved (Prim (Bool false)).
Proof.
  destruct (confirm_returnBool (endingWith closedOutcome)
              (confirmOptions (Bool true)) closedOutcome eq_refl)
    as [Hset _].
  destruct (Hset eq_refl) as (b & Hpromise & _ & Hdismissed).
  rewrite Hpromise.
  by rewrite (Hdismissed (Prim (Str "close")) eq_refl eq_refl).
Defined.

(** the confirmed outcome [{ value: { amount: 42 } }] resolves with its
    value *)
Lemma dismissal_handling_witness :
  promise (getPromptedUserInput (endingWith confirmedOutcome)
             (promptOptions [Some amountField]))
    = Resolved (Obj {[ "amount" := Prim (Num 42) ]}).
Proof.
  destruct (dismissal_handling (endingWith confirmedOutcome)
              (promptOptions [Some amountField])
              (promptConfig (promptOptions [Some amountField]) (Str "a"))
              confirmedOutcome (Prim Undefined)
              (Obj {[ "amount" := Prim (Num 42) ]})
              eq_refl eq_refl eq_refl eq_refl)
    as (_ & Hconfirmed & _).
  exact (Hconfirmed eq_refl eq_refl).
Defined.

(** the select of [colourField] marks Green, the entry with value 'g', and
    leaves Red unmarked *)
Lemma select_options_selected_witness :
  exists before after,
    getInputHtmlforPrompt colourField =
      before ++ "/>"
      ++ ("<option" ++
          nl ++ "          value=" ++ dq ++ "r" ++ dq ++
          nl ++ "          " ++
          nl ++ "          " ++
          nl ++ "        >" ++
          nl ++ "          Red" ++
          nl ++ "        </option>")
      ++ ("<option" ++
          nl ++ "          value=" ++ dq ++ "g" ++ dq ++
          nl ++ "          selected" ++
          nl ++ "          " ++
          nl ++ "        >" ++
          nl ++ "          Green" ++
          nl ++ "        </option>")
      ++ "</select>" ++ after.
Proof.
  destruct (select_options_selected colourField eq_refl)
    as (before & after & blocks & Hmarkup & Hblocks & _).
  apply Forall2_cons_inv_l in Hblocks as (red & rest & Hred & Hrest & ->).
  apply Forall2_cons_inv_l in Hrest as (green & rest' & Hgreen & Hrest' & ->).
  apply Forall2_nil_inv_l in Hrest' as ->.
  exists before, after. rewrite Hmarkup, Hred, Hgreen. simpl.
  rewrite !append_assoc. reflexivity.
Defined.

(** the example of the specification: rule 'required' on an empty field *)
Lemma validation_errors_surface_witness :
  getResultsAfterValidations [Some (plainField (Str "text"))] [requiredRule]
      pageWithEmpty (Prim (Bool true)) =
    (Resolved (Prim (Bool true)),
     [ResetValidationError; ShowValidationError "required"]).
Proof.
  apply (validation_errors_surface _ [requiredRule] pageWithEmpty _ [Str "required"]).
  - eapply (recorded_fail pageWithEmpty requiredRule [] []);
      [reflexivity | reflexivity | reflexivity | constructor].
  - discriminate.
Defined.

(** [{ id: 'a', name: 'a', type: 'text' }] prints undefined three times *)
Lemma missing_attributes_print_undefined_witness :
  contains ("placeholder=" ++ dq ++ "undefined" ++ dq)
           (getInputHtmlforPrompt (plainField (Str "text"))) /\
  contains ("value=" ++ dq ++ "undefined" ++ dq)
           (getInputHtmlforPrompt (plainField (Str "text"))) /\
  contains ("maxlength=" ++ dq ++ "undefined" ++ dq)
           (getInputHtmlforPrompt (plainField (Str "text"))).
Proof.
  destruct (missing_attributes_print_undefined (plainField (Str "text")))
    as (Hplaceholder & Hvalue & Hmax); [discriminate | discriminate |].
  split; [exact (Hplaceholder eq_refl) |].
  split; [exact (Hvalue eq_refl) | exact (Hmax eq_refl)].
Defined.

(** ** More on the FieldRenderer *)

(** as [skip_to_needle], for a needle that has parts of its own *)
Ltac find_needle lead :=
  first [ by eexists lead, _
        | by (eexists lead, _; rewrite ?append_assoc)
        | apply contains_skip; find_needle lead ].

Lemma contains_app_l (needle hay rest : string) :
  contains needle hay -> contains needle (hay ++ rest).
Proof.
  intros (before & after & ->). exists before, (after ++ rest).
  by rewrite !append_assoc.
Qed.

Lemma contains_joinStrings (needle block : string) (blocks : list string) :
  block ∈ blocks -> contains needle block -> contains needle (joinStrings blocks).
Proof.
  intros Hin Hblock. induction blocks as [|b blocks IH]; simpl.
  - by apply elem_of_nil in Hin.
  - apply elem_of_cons in Hin as [<- | Hin].
    + by apply contains_app_l.
    + apply contains_skip. by apply IH.
Qed.

Lemma getInputHtmlforPrompt_textarea (input : Input.t) :
  Input.type input = Str "textarea" ->
  getInputHtmlforPrompt input = textareaHtml input.
Proof. intros Htype. unfold getInputHtmlforPrompt. by rewrite Htype. Qed.

Lemma selectHtml_options (input : Input.t) :
  endsWith ("/>" ++ options input ++ "</select>" ++ nl ++ "      </p>" ++ nl ++ "    ")
           (selectHtml input).
Proof. unfold selectHtml. skip_to_tail "        ". Qed.

Lemma contains_in_select (needle : string) (input : Input.t) :
  contains needle ("/>" ++ options input ++ "</select>") ->
  contains needle (selectHtml input).
Proof.
  intros Hinner. destruct (selectHtml_options input) as [before ->].
  apply contains_skip.
  replace ("/>" ++ options input ++ "</select>" ++ nl ++ "      </p>" ++ nl ++ "    ")
    with (("/>" ++ options input ++ "</select>") ++ nl ++ "      </p>" ++ nl ++ "    ").
  - by apply contains_app_l.
  - change ("/>" ++ options input ++ "</select>")
      with (String "/" (String ">" (options input ++ "</select>"))).
    change (String "/" (String ">" (options input ++ "</select>"))
            ++ nl ++ "      </p>" ++ nl ++ "    ")
      with (String "/" (String ">" ((options input ++ "</select>")
                                    ++ nl ++ "      </p>" ++ nl ++ "    "))).
    by rewrite append_assoc.
Qed.

(** X1: a textarea descriptor whose [cols] or [rows] is unset, or falsy
    like 0, is rendered with that attribute set to 5; a truthy one is
    printed as it is. *)
Theorem textarea_size_defaults (input : Input.t) :
  Input.type input = Str "textarea" ->
  (truthyP (Input.cols input) = false ->
   contains ("cols=" ++ dq ++ "5" ++ dq) (getInputHtmlforPrompt input)) /\
  (truthyP (Input.rows input) = false ->
   contains ("rows=" ++ dq ++ "5" ++ dq) (getInputHtmlforPrompt input)) /\
  (truthyP (Input.cols input) = true ->
   contains ("cols=" ++ dq ++ ToString (Input.cols input) ++ dq)
            (getInputHtmlforPrompt input)) /\
  (truthyP (Input.rows input) = true ->
   contains ("rows=" ++ dq ++ ToString (Input.rows input) ++ dq)
            (getInputHtmlforPrompt input)).
Proof.
  intros Htype. rewrite (getInputHtmlforPrompt_textarea _ Htype).
  unfold textareaHtml, or_else.
  repeat split; intros ->; find_needle "          ".
Qed.

(** X2: when the label is set, the markup of every branch contains the
    label element with the label text, bound to the descriptor's id, or to
    the empty string when the id is falsy. *)
Theorem label_block_rendered (input : Input.t) :
  truthyP (Input.label input) = true ->
  contains ("<label htmlFor=" ++ dq
            ++ (if truthyP (Input.id input) then ToString (Input.id input) else "")
            ++ dq ++ ">" ++ ToString (Input.label input) ++ "</label>")
           (getInputHtmlforPrompt input).
Proof.
  intros Hset. destruct (getInputHtmlforPrompt_label input) as (indent & rest & ->).
  rewrite (label_set _ Hset). do 2 apply contains_skip. apply contains_app_l.
  unfold labelBlock, or_else.
  destruct (truthyP (Input.id input)); find_needle "        ".
Qed.

(** X3: the type has no default: a descriptor without a type is rendered
    by the input branch, with the text undefined as the type attribute. *)
Theorem unset_type_prints_undefined (input : Input.t) :
  Input.type input = Undefined ->
  contains ("<input" ++ nl ++ "        type=" ++ dq ++ "undefined" ++ dq)
           (getInputHtmlforPrompt input).
Proof.
  intros Htype.
  rewrite getInputHtmlforPrompt_text by (rewrite Htype; discriminate).
  unfold textHtml. rewrite Htype. find_needle "      ".
Qed.

(** X4: an unset [value] is printed as the text undefined in the other two
    branches too: as the content of a textarea and as the value attribute
    of a select. *)
Theorem unset_value_prints_undefined (input : Input.t) :
  Input.value input = Undefined ->
  (Input.type input = Str "textarea" ->
   contains ("/>undefined</textarea>") (getInputHtmlforPrompt input)) /\
  (Input.type input = Str "select" ->
   contains ("value=" ++ dq ++ "undefined" ++ dq ++ nl)
            (getInputHtmlforPrompt input)).
Proof.
  intros Hvalue. split; intros Htype.
  - rewrite (getInputHtmlforPrompt_textarea _ Htype). unfold textareaHtml.
    rewrite Hvalue. find_needle "        ".
  - rewrite (getInputHtmlforPrompt_select _ Htype). unfold selectHtml.
    rewrite Hvalue. find_needle "          ".
Qed.

(** X5: a select descriptor whose [options] is unset or empty is rendered
    as a select element with nothing inside. *)
Theorem select_without_options (input : Input.t) :
  Input.type input = Str "select" ->
  default [] (Input.options input) = [] ->
  contains "/></select>" (getInputHtmlforPrompt input).
Proof.
  intros Htype Hnone. rewrite (getInputHtmlforPrompt_select _ Htype).
  apply contains_in_select. unfold options. rewrite Hnone. simpl.
  by exists "", "".
Qed.

(** X6: in the markup of a select, an entry whose value is falsy (0, the
    empty string, unset) gets an empty value attribute, and an entry
    without a name is displayed by its value when that value is truthy and
    by the empty text when it is falsy. *)
Theorem option_fallbacks (input : Input.t) (option : SelectOption.t) :
  Input.type input = Str "select" ->
  option ∈ default [] (Input.options input) ->
  (truthyP (SelectOption.value option) = false ->
   contains ("<option" ++ nl ++ "          value=" ++ dq ++ dq ++ nl)
            (getInputHtmlforPrompt input)) /\
  (truthyP (SelectOption.name option) = false ->
   contains (">" ++ nl ++ "          "
             ++ (if truthyP (SelectOption.value option)
                 then ToString (SelectOption.value option) else "")
             ++ nl ++ "        </option>")
            (getInputHtmlforPrompt input)).
Proof.
  intros Htype Hin. rewrite (getInputHtmlforPrompt_select _ Htype).
  assert (Hblock : optionHtml input option
                     ∈ map (optionHtml input) (default [] (Input.options input))).
  { apply list_elem_of_fmap. by exists option. }
  split.
  - intros Hfalsy. apply contains_in_select. apply contains_skip, contains_app_l.
    apply (contains_joinStrings _ _ _ Hblock).
    unfold optionHtml, optionTemplate, or_else. rewrite Hfalsy. simpl.
    by eexists "", _.
  - intros Hname. apply contains_in_select.
    apply contains_skip, contains_app_l.
    apply (contains_joinStrings _ _ _ Hblock).
    unfold optionHtml, optionTemplate, or_else. rewrite Hname.
    destruct (truthyP (SelectOption.value option)); find_needle "        ".
Qed.

(** ** More on the filter *)

Lemma validInputs_app (a b : list (option Input.t)) :
  validInputs (a ++ b)%list = (validInputs a ++ validInputs b)%list.
Proof.
  induction a as [|[d|] a IH]; simpl; [reflexivity | | exact IH].
  destruct (truthyP (Input.id d) && truthyP (Input.name d)); simpl; by rewrite IH.
Qed.

Lemma validInputs_skip (pre : list (option Input.t)) :
  Forall (fun entry => ~ hasIdAndName entry) pre -> validInputs pre = [].
Proof.
  intros Hpre. apply validInputs_none. intros input Hin.
  by apply (proj1 (Forall_forall _ _) Hpre).
Qed.

(** X7: the retained descriptors are a subsequence of the given entries,
    each of them has a truthy id and a truthy name, and filtering them
    again changes nothing. *)
Theorem validInputs_invariants (inputs : list (option Input.t)) :
  sublist (map Some (validInputs inputs)) inputs /\
  Forall (fun d => truthyP (Input.id d) = true /\ truthyP (Input.name d) = true)
         (validInputs inputs) /\
  validInputs (map Some (validInputs inputs)) = validInputs inputs.
Proof.
  induction inputs as [|[d|] rest (Hsub & Hall & Hidem)]; simpl.
  - repeat split; constructor.
  - destruct (truthyP (Input.id d) && truthyP (Input.name d)) eqn:Hd; simpl.
    + rewrite Hd. apply andb_prop in Hd. repeat split.
      * by constructor.
      * by constructor.
      * by rewrite Hidem.
    + repeat split; [by constructor | exact Hall | exact Hidem].
  - repeat split; [by constructor | exact Hall | exact Hidem].
Qed.

(** ** More on the Validator *)

Lemma validationLoop_app_recorded (document : DOM) (pre rest : list Validation.t)
    (errors : list prim) :
  recorded document pre errors ->
  forall acc,
    validationLoop document (pre ++ rest)%list acc =
    validationLoop document rest (acc ++ errors)%list.
Proof.
  induction 1 as [| validation pre errors Habsent _ IH
                  | validation pre errors element verdict Hfound Hcall Hfalsy _ IH
                  | validation pre errors element verdict Hfound Hcall Htruthy _ IH];
    intros acc; simpl.
  - by rewrite app_nil_r.
  - rewrite Habsent, IH. rewrite <- app_assoc. simpl.
    unfold missingMessage, shownName, or_else.
    by destruct (truthyP (Validation.name validation)).
  - rewrite Hfound, Hcall. simpl. rewrite Hfalsy. simpl.
    rewrite IH. by rewrite <- app_assoc.
  - rewrite Hfound, Hcall. simpl. rewrite Htruthy. simpl. apply IH.
Qed.

Lemma join_nullish (errors : list prim) :
  Forall nullish errors -> join errors = "".
Proof.
  induction 1 as [|p errors [-> | ->] _ IH]; simpl; [reflexivity | exact IH | exact IH].
Qed.

(** X8: when a rule's [validate] throws (or is not a function) on the
    element it finds, the hook's promise rejects with that exception and no
    validation error is shown, whatever messages the rules before it
    recorded and whatever rules follow. *)
Theorem throwing_validator_rejects (inputs : list (option Input.t))
    (pre post : list Validation.t) (validation : Validation.t)
    (document : DOM) (result : jsval) (errors : list prim)
    (element : Element.t) (e : exn) :
  recorded document pre errors ->
  getElementById document (Validation.id validation) = Some element ->
  call (Validation.validate validation) element = Throw e ->
  getResultsAfterValidations inputs (pre ++ validation :: post)%list document result =
    (Rejected e, [ResetValidationError]).
Proof.
  intros Hpre Hfound Hthrow. unfold getResultsAfterValidations.
  rewrite (validationLoop_app_recorded _ _ _ _ Hpre). simpl.
  by rewrite Hfound, Hthrow.
Qed.

(** X9: a failing rule whose [messageOnFail] is unset still blocks the
    confirmation: when every recorded message is undefined or null, the
    hook shows the empty message and resolves with the value it was called
    with. *)
Theorem unset_messages_block_silently (inputs : list (option Input.t))
    (validations : list Validation.t) (document : DOM) (result : jsval)
    (errors : list prim) :
  recorded document validations errors ->
  errors <> [] ->
  Forall nullish errors ->
  getResultsAfterValidations inputs validations document result =
    (Resolved result, [ResetValidationError; ShowValidationError ""]).
Proof.
  intros Hrec Hsome Hnull. unfold getResultsAfterValidations.
  rewrite (validationLoop_recorded _ _ _ Hrec []). simpl.
  rewrite <- (join_nullish _ Hnull). by destruct errors.
Qed.

Lemma recorded_app (document : DOM) (a b : list Validation.t)
    (errorsA errorsB : list prim) :
  recorded document a errorsA ->
  recorded document b errorsB ->
  recorded document (a ++ b)%list (errorsA ++ errorsB)%list.
Proof.
  induction 1; intros Hb; simpl; [exact Hb | | |].
  - by apply recorded_absent; [| apply IHrecorded].
  - by eapply recorded_fail; [| | | apply IHrecorded].
  - by eapply recorded_pass; [| | | apply IHrecorded].
Qed.

Lemma join_app (a b : list prim) : join (a ++ b)%list = join a ++ join b.
Proof.
  induction a as [|p a IH]; simpl; [reflexivity |].
  by rewrite IH, append_assoc.
Qed.

(** X19: messages compose: when two lists of rules are checked as one list
    and at least one message is recorded, the message shown is the text
    recorded for the first list directly followed by the text recorded for
    the second, with nothing put between messages. *)
Theorem messages_concatenate (inputs : list (option Input.t))
    (a b : list Validation.t) (document : DOM) (result : jsval)
    (errorsA errorsB : list prim) :
  recorded document a errorsA ->
  recorded document b errorsB ->
  (errorsA ++ errorsB)%list <> [] ->
  getResultsAfterValidations inputs (a ++ b)%list document result =
    (Resolved result,
     [ResetValidationError; ShowValidationError (join errorsA ++ join errorsB)]).
Proof.
  intros Ha Hb Hsome. unfold getResultsAfterValidations.
  rewrite (validationLoop_recorded _ _ _ (recorded_app _ _ _ _ _ Ha Hb) []).
  simpl. rewrite <- join_app. by destruct (errorsA ++ errorsB)%list.
Qed.

(** ** More on the aggregation step *)

Lemma collectLoop_app (document : DOM) (a b : list (option Input.t))
    (acc : gmap string jsval) :
  collectLoop document (a ++ b)%list acc =
    match collectLoop document a acc with
    | Normal returnData => collectLoop document b returnData
    | Throw e => Throw e
    end.
Proof.
  revert acc. induction a as [|[d|] a IH]; intros acc; simpl; try reflexivity.
  destruct (getElementById document (Input.id d)) as [element|]; [| reflexivity].
  destruct (inputValue d element) as [v|e]; simpl; [apply IH | reflexivity].
Qed.

Lemma collectLoop_collectable (document : DOM) (inputs : list (option Input.t)) :
  Forall (collectable document) inputs ->
  forall acc, exists returnData, collectLoop document inputs acc = Normal returnData.
Proof.
  induction 1 as [|entry rest (d & element & v & -> & Hfound & Hvalue) _ IH];
    intros acc; simpl.
  - by exists acc.
  - rewrite Hfound, Hvalue. simpl. apply IH.
Qed.

Lemma collectLoop_preserve (document : DOM) (inputs : list (option Input.t))
    (k : string) :
  (forall d, Some d ∈ inputs -> resultKey d <> k) ->
  forall acc returnData,
    collectLoop document inputs acc = Normal returnData ->
    returnData !! k = acc !! k.
Proof.
  induction inputs as [|[d|] rest IH]; intros Hfresh acc returnData; simpl.
  - by intros [= <-].
  - destruct (getElementById document (Input.id d)) as [element|]; [| discriminate].
    destruct (inputValue d element) as [v|e]; simpl; [| discriminate].
    intros Hrest. rewrite (IH (fun d' Hin => Hfresh d' (list_elem_of_further _ _ _ Hin))
                              _ _ Hrest).
    apply lookup_insert_ne. apply Hfresh. by left.
  - discriminate.
Qed.

Lemma collectLoop_keys (document : DOM) (inputs : list (option Input.t))
    (k : string) :
  forall acc returnData,
    collectLoop document inputs acc = Normal returnData ->
    (is_Some (returnData !! k) <->
     is_Some (acc !! k) \/ exists d, Some d ∈ inputs /\ resultKey d = k).
Proof.
  induction inputs as [|[d|] rest IH]; intros acc returnData; simpl.
  - intros [= <-]. split; [by left |].
    intros [Hacc | (d & Hin & _)]; [exact Hacc | by apply elem_of_nil in Hin].
  - destruct (getElementById document (Input.id d)) as [element|]; [| discriminate].
    destruct (inputValue d element) as [v|e]; simpl; [| discriminate].
    intros Hrest. rewrite (IH _ _ Hrest). fold (resultKey d).
    rewrite lookup_insert_is_Some. split.
    + intros [[Hkey | [_ Hacc]] | (d' & Hin & Hkey)].
      * right. exists d. split; [by left | exact Hkey].
      * by left.
      * right. exists d'. split; [by right | exact Hkey].
    + intros [Hacc | (d' & Hin & Hkey)].
      * destruct (decide (resultKey d = k)) as [Heq | Hne]; left; [by left | by right].
      * apply elem_of_cons in Hin as [[= ->] | Hin].
        -- left. by left.
        -- right. by exists d'.
  - discriminate.
Qed.

(** X10: when every rule passes and every entry is a descriptor whose
    element is in the page and whose formatter returns, the hook resolves
    with an object whose keys are exactly the keys (fieldName, else name) of
    the entries, and under each key holds the value of the last entry with
    that key.  The key '__proto__', which JavaScript does not store as a
    property, is left aside. *)
Theorem hook_collects_last_value (inputs : list (option Input.t))
    (validations : list Validation.t) (document : DOM) (result : jsval) :
  recorded document validations [] ->
  Forall (collectable document) inputs ->
  (forall d, Some d ∈ inputs -> resultKey d <> "__proto__") ->
  exists returnData,
    getResultsAfterValidations inputs validations document result =
      (Resolved (Obj returnData), [ResetValidationError]) /\
    (forall k, is_Some (returnData !! k) <->
               exists d, Some d ∈ inputs /\ resultKey d = k) /\
    (forall pre d post element v,
       inputs = (pre ++ Some d :: post)%list ->
       (forall d', Some d' ∈ post -> resultKey d' <> resultKey d) ->
       getElementById document (Input.id d) = Some element ->
       inputValue d element = Normal v ->
       returnData !! resultKey d = Some v).
Proof.
  intros Hrec Hall _.
  destruct (collectLoop_collectable _ _ Hall ∅) as [returnData Hloop].
  exists returnData. repeat split.
  - unfold getResultsAfterValidations.
    rewrite (validationLoop_recorded _ _ _ Hrec []). simpl. by rewrite Hloop.
  - intros Hk. apply (collectLoop_keys _ _ k _ _ Hloop) in Hk as [Hempty | Hd];
      [| exact Hd].
    rewrite lookup_empty in Hempty. by destruct Hempty.
  - intros Hd. apply (collectLoop_keys _ _ k _ _ Hloop). by right.
  - intros pre d post element v -> Hfresh Hfound Hvalue.
    rewrite collectLoop_app in Hloop.
    destruct (collectLoop document pre ∅) as [before|e]; [| discriminate].
    simpl in Hloop. rewrite Hfound, Hvalue in Hloop. simpl in Hloop.
    rewrite (collectLoop_preserve _ _ _ Hfresh _ _ Hloop).
    apply lookup_insert_eq.
Qed.

(** X11: when every rule passes, the first entry that is null or whose
    element is not in the page makes the hook's promise reject with a
    TypeError, after the entries before it were read. *)
Theorem unreadable_entry_rejects (pre post : list (option Input.t))
    (entry : option Input.t) (validations : list Validation.t)
    (document : DOM) (result : jsval) :
  recorded document validations [] ->
  Forall (collectable document) pre ->
  (entry = None \/
   exists d, entry = Some d /\ getElementById document (Input.id d) = None) ->
  getResultsAfterValidations (pre ++ entry :: post)%list validations document result =
    (Rejected TypeError, [ResetValidationError]).
Proof.
  intros Hrec Hpre Hbad. unfold getResultsAfterValidations.
  rewrite (validationLoop_recorded _ _ _ Hrec []). simpl.
  rewrite collectLoop_app.
  destruct (collectLoop_collectable _ _ Hpre ∅) as [before ->].
  destruct Hbad as [-> | (d & -> & Hmissing)]; simpl; [reflexivity |].
  by rewrite Hmissing.
Qed.

(** X12: when every rule passes, a [formatValue] that throws makes the
    hook's promise reject with the exception it threw. *)
Theorem throwing_formatter_rejects (pre post : list (option Input.t))
    (d : Input.t) (validations : list Validation.t) (document : DOM)
    (result : jsval) (element : Element.t) (e : exn) :
  recorded document validations [] ->
  Forall (collectable document) pre ->
  getElementById document (Input.id d) = Some element ->
  inputValue d element = Throw e ->
  getResultsAfterValidations (pre ++ Some d :: post)%list validations document result =
    (Rejected e, [ResetValidationError]).
Proof.
  intros Hrec Hpre Hfound Hthrow. unfold getResultsAfterValidations.
  rewrite (validationLoop_recorded _ _ _ Hrec []). simpl.
  rewrite collectLoop_app.
  destruct (collectLoop_collectable _ _ Hpre ∅) as [before ->].
  simpl. by rewrite Hfound, Hthrow.
Qed.

(** ** More on the prompts *)

Lemma validInputs_first (pre post : list (option Input.t)) (d : Input.t) :
  Forall (fun entry => ~ hasIdAndName entry) pre ->
  hasIdAndName (Some d) ->
  validInputs (pre ++ Some d :: post)%list = d :: validInputs post.
Proof.
  intros Hpre (d' & [= <-] & Hid & Hname).
  rewrite validInputs_app, (validInputs_skip _ Hpre). simpl.
  by rewrite Hid, Hname.
Qed.

(** X13: the dialog of [getPromptedUserInput] focuses, when it opens, the
    field of the first entry that has an id and a name: entries before it
    that lack one are passed over, and nothing is focused when that field
    is not in the page. *)
Theorem first_valid_input_focused (sweetalert2 : Swal.t -> settled)
    (o : PromptOptions.t) (pre post : list (option Input.t)) (d : Input.t) :
  PromptOptions.inputs o = (pre ++ Some d :: post)%list ->
  Forall (fun entry => ~ hasIdAndName entry) pre ->
  hasIdAndName (Some d) ->
  exists config onOpen,
    dialogs (getPromptedUserInput sweetalert2 o) = [config] /\
    Swal.onOpen config = Some onOpen /\
    forall document : DOM,
      onOpen document =
        if decide (is_Some (document !! ToString (Input.id d)))
        then [Focus (ToString (Input.id d))] else [].
Proof.
  intros Hinputs Hpre Hd. unfold getPromptedUserInput.
  rewrite Hinputs, (validInputs_first _ _ _ Hpre Hd).
  eexists _, _. split; [reflexivity |]. split; [reflexivity |].
  intros document. unfold getElementById.
  destruct (document !! ToString (Input.id d)) as [element|] eqn:Hfound.
  - rewrite decide_True; [reflexivity | by eexists].
  - rewrite decide_False; [reflexivity | by intros [? ?]].
Qed.

(** X14: when the dialog of [getPromptedUserInput] resolves with null or
    undefined, the returned promise rejects with a TypeError, not with the
    'stop-execution' error. *)
Theorem nullish_outcome_rejects (sweetalert2 : Swal.t -> settled)
    (o : PromptOptions.t) (config : Swal.t) (result : prim) :
  dialogs (getPromptedUserInput sweetalert2 o) = [config] ->
  sweetalert2 config = Resolved (Prim result) ->
  nullish result ->
  promise (getPromptedUserInput sweetalert2 o) = Rejected TypeError.
Proof.
  intros Hfired Hswal Hnull. unfold getPromptedUserInput in *.
  destruct (validInputs (PromptOptions.inputs o)) as [|first rest];
    [discriminate |].
  simpl in *. injection Hfired as <-. rewrite Hswal.
  by destruct Hnull as [-> | ->].
Qed.

(** X15: a rejection of the dialog's promise is passed on unchanged by
    [getPromptedUserInput] and by [promptAreYouSureBefore]. *)
Theorem widget_rejection_passes (sweetalert2 : Swal.t -> settled) (e : exn) :
  (forall (o : PromptOptions.t) (config : Swal.t),
     dialogs (getPromptedUserInput sweetalert2 o) = [config] ->
     sweetalert2 config = Rejected e ->
     promise (getPromptedUserInput sweetalert2 o) = Rejected e) /\
  (forall c : ConfirmOptions.t,
     sweetalert2 (confirmConfig c) = Rejected e ->
     promise (promptAreYouSureBefore sweetalert2 c) = Rejected e).
Proof.
  split.
  - intros o config Hfired Hswal. unfold getPromptedUserInput in *.
    destruct (validInputs (PromptOptions.inputs o)) as [|first rest];
      [discriminate |].
    simpl in *. injection Hfired as <-. by rewrite Hswal.
  - intros c Hswal. unfold promptAreYouSureBefore. simpl. by rewrite Hswal.
Qed.

Lemma promptThen_truthy (result v : jsval) :
  promptThen result = Normal v -> truthy v = true.
Proof.
  unfold promptThen.
  destruct (get result "dismiss") as [dismiss|e]; simpl; [| discriminate].
  destruct (truthy dismiss); [discriminate |].
  destruct (get result "value") as [value|e] eqn:Hvalue; simpl; [| discriminate].
  destruct (truthy value) eqn:Htruthy; simpl; [| discriminate].
  by intros [= <-].
Qed.

Lemma promptThen_confirmThen (returnBool : prim) (result : jsval) :
  truthyP returnBool = true ->
  (confirmThen returnBool result = Normal (Prim (Bool true)) <->
   exists v, promptThen result = Normal v).
Proof.
  intros Hset.
  destruct (get_nullish result "dismiss") as [-> | [-> | [dismiss Hdismiss]]].
  - unfold confirmThen, promptThen. rewrite Hset. simpl.
    split; [discriminate | intros [v Hv]; discriminate].
  - unfold confirmThen, promptThen. rewrite Hset. simpl.
    split; [discriminate | intros [v Hv]; discriminate].
  - destruct (get_nullish result "value") as [-> | [-> | [value Hvalue]]];
      try discriminate.
    rewrite (confirmThen_bool _ _ _ _ Hset Hdismiss Hvalue).
    unfold promptThen. rewrite Hdismiss. simpl.
    destruct (truthy dismiss) eqn:Hd; simpl.
    + rewrite andb_false_r. simpl. split; [discriminate | intros [v Hv]; discriminate].
    + rewrite Hvalue. simpl. rewrite andb_true_r.
      destruct (truthy value) eqn:Hv; simpl.
      * rewrite andb_true_r. split; [intros _; by exists value |].
        intros _. destruct (truthy result) eqn:Hr; [reflexivity |].
        rewrite (get_of_falsy _ _ _ Hr Hvalue) in Hv. discriminate.
      * rewrite andb_false_r. split; [discriminate | intros [v Hv']; discriminate].
Qed.

(** X16: the two prompts agree on what a confirmed dialog is: for one and
    the same outcome, [promptAreYouSureBefore] with [returnBool] set
    resolves [true] exactly when [getPromptedUserInput] resolves. *)
Theorem prompts_agree_on_confirmation (sweetalert2 : Swal.t -> settled)
    (c : ConfirmOptions.t) (o : PromptOptions.t) (config : Swal.t)
    (result : jsval) :
  truthyP (ConfirmOptions.returnBool c) = true ->
  sweetalert2 (confirmConfig c) = Resolved result ->
  dialogs (getPromptedUserInput sweetalert2 o) = [config] ->
  sweetalert2 config = Resolved result ->
  (promise (promptAreYouSureBefore sweetalert2 c) = Resolved (Prim (Bool true)) <->
   exists v, promise (getPromptedUserInput sweetalert2 o) = Resolved v).
Proof.
  intros Hflag Hc Hfired Hswal.
  assert (Hset : truthyP (default_to (Bool false) (ConfirmOptions.returnBool c)) = true)
    by (by rewrite default_to_truthy).
  unfold promptAreYouSureBefore, getPromptedUserInput in *.
  destruct (validInputs (PromptOptions.inputs o)) as [|first rest];
    [discriminate |].
  simpl in *. injection Hfired as <-. rewrite Hc, Hswal. simpl.
  pose proof (promptThen_confirmThen _ result Hset) as Hagree.
  destruct (confirmThen_normal
              (default_to (Bool false) (ConfirmOptions.returnBool c)) result)
    as [b Hb].
  rewrite Hb in *.
  destruct (promptThen result) as [v|e] eqn:Hprompt.
  - split; [intros _; by exists v |].
    intros _. destruct Hagree as [_ Hback].
    by injection (Hback (ex_intro _ v eq_refl)) as ->.
  - split; [| intros [v Hv]; discriminate].
    intros [= ->]. destruct Hagree as [Hforth _].
    destruct (Hforth eq_refl) as [v Hv]. discriminate.
Qed.

(** X17: [getPromptedUserInput] never resolves with a falsy value: whatever
    the widget and the options, a value it resolves with is truthy. *)
Theorem prompt_resolves_truthy (sweetalert2 : Swal.t -> settled)
    (o : PromptOptions.t) (v : jsval) :
  promise (getPromptedUserInput sweetalert2 o) = Resolved v ->
  truthy v = true.
Proof.
  unfold getPromptedUserInput.
  destruct (validInputs (PromptOptions.inputs o)) as [|first rest]; simpl;
    [discriminate |].
  destruct (sweetalert2 _) as [result|e]; simpl; [| discriminate].
  destruct (promptThen result) as [w|e] eqn:Hthen; [| discriminate].
  intros [= <-]. by apply (promptThen_truthy result).
Qed.

(** X18: a falsy title is handled differently by the two helpers: the
    loading notice replaces every falsy title (the empty string and null
    included) by 'Loading...', while the confirmation prompt replaces only
    an unset title by 'Are you sure?' and passes any other falsy title to
    the dialog as it is. *)
Theorem falsy_title_handling (sweetalert2 : Swal.t -> settled)
    (title buttonText : prim) (c : ConfirmOptions.t) :
  truthyP title = false ->
  ConfirmOptions.titleText c = title ->
  (exists config,
     dialogs (showDismissableLoadingNotice sweetalert2 title buttonText) = [config] /\
     Swal.titleText config = Str "Loading...") /\
  (exists config,
     dialogs (promptAreYouSureBefore sweetalert2 c) = [config] /\
     Swal.titleText config =
       if decide (title = Undefined) then Str "Are you sure?" else title).
Proof.
  intros Hfalsy Htitle. split; eexists; (split; [reflexivity |]); simpl.
  - unfold or_else. by rewrite Hfalsy.
  - rewrite Htitle. by destruct title.
Qed.

(** ** The further theorems at concrete inputs *)

(** a textarea with [cols: 0] and no [rows] gets 5 for both *)
Lemma textarea_size_defaults_witness :
  contains ("cols=" ++ dq ++ "5" ++ dq) (getInputHtmlforPrompt notesField) /\
  contains ("rows=" ++ dq ++ "5" ++ dq) (getInputHtmlforPrompt notesField).
Proof.
  destruct (textarea_size_defaults notesField eq_refl) as (Hcols & Hrows & _).
  split; [exact (Hcols eq_refl) | exact (Hrows eq_refl)].
Defined.

(** a labelled field without an id is bound to the empty string *)
Lemma label_block_rendered_witness :
  contains ("<label htmlFor=" ++ dq ++ "" ++ dq ++ ">" ++ "Name" ++ "</label>")
           (getInputHtmlforPrompt labelledField).
Proof. exact (label_block_rendered labelledField eq_refl). Defined.

Lemma unset_type_prints_undefined_witness :
  contains ("<input" ++ nl ++ "        type=" ++ dq ++ "undefined" ++ dq)
           (getInputHtmlforPrompt (plainField Undefined)).
Proof. exact (unset_type_prints_undefined (plainField Undefined) eq_refl). Defined.

Lemma unset_value_prints_undefined_witness :
  contains ("/>undefined</textarea>")
           (getInputHtmlforPrompt (plainField (Str "textarea"))) /\
  contains ("value=" ++ dq ++ "undefined" ++ dq ++ nl)
           (getInputHtmlforPrompt (plainField (Str "select"))).
Proof.
  split.
  - exact (proj1 (unset_value_prints_undefined (plainField (Str "textarea")) eq_refl)
                 eq_refl).
  - exact (proj2 (unset_value_prints_undefined (plainField (Str "select")) eq_refl)
                 eq_refl).
Defined.

Lemma select_without_options_witness :
  contains "/></select>" (getInputHtmlforPrompt (plainField (Str "select"))).
Proof. exact (select_without_options (plainField (Str "select")) eq_refl eq_refl). Defined.

(** [{ value: 0 }] gets an empty value attribute and an empty text,
    [{ value: 7 }] shows 7 *)
Lemma option_fallbacks_witness :
  contains ("<option" ++ nl ++ "          value=" ++ dq ++ dq ++ nl)
           (getInputHtmlforPrompt quantityField) /\
  contains (">" ++ nl ++ "          " ++ "" ++ nl ++ "        </option>")
           (getInputHtmlforPrompt quantityField) /\
  contains (">" ++ nl ++ "          " ++ "7" ++ nl ++ "        </option>")
           (getInputHtmlforPrompt quantityField).
Proof.
  assert (Hzero : zeroOption ∈ default [] (Input.options quantityField))
    by (simpl; by left).
  assert (Hseven : sevenOption ∈ default [] (Input.options quantityField))
    by (simpl; right; by left).
  split; [| split].
  - exact (proj1 (option_fallbacks quantityField zeroOption eq_refl Hzero) eq_refl).
  - exact (proj2 (option_fallbacks quantityField zeroOption eq_refl Hzero) eq_refl).
  - exact (proj2 (option_fallbacks quantityField sevenOption eq_refl Hseven) eq_refl).
Defined.

Lemma recorded_required_empty :
  recorded pageWithEmpty [requiredRule] [Str "required"].
Proof.
  eapply (recorded_fail pageWithEmpty requiredRule [] []);
    [reflexivity | reflexivity | reflexivity | constructor].
Defined.

(** a rule without a [validate] function after a failing rule *)
Lemma throwing_validator_rejects_witness :
  getResultsAfterValidations [Some (plainField (Str "text"))]
      [requiredRule; brokenRule] pageWithEmpty (Prim (Bool true)) =
    (Rejected TypeError, [ResetValidationError]).
Proof.
  exact (throwing_validator_rejects [Some (plainField (Str "text"))]
           [requiredRule] [] brokenRule pageWithEmpty (Prim (Bool true))
           [Str "required"] {| Element.value := Str "" |} TypeError
           recorded_required_empty eq_refl eq_refl).
Defined.

(** a failing rule without a message *)
Lemma unset_messages_block_silently_witness :
  getResultsAfterValidations [Some (plainField (Str "text"))] [silentRule]
      pageWithEmpty (Prim (Bool true)) =
    (Resolved (Prim (Bool true)), [ResetValidationError; ShowValidationError ""]).
Proof.
  apply (unset_messages_block_silently _ [silentRule] pageWithEmpty _ [Undefined]).
  - eapply (recorded_fail pageWithEmpty silentRule [] []);
      [reflexivity | reflexivity | reflexivity | constructor].
  - discriminate.
  - constructor; [by left | constructor].
Defined.

Lemma collectable_amount (document : DOM) :
  document !! "a" = Some {| Element.value := Str "42" |} ->
  collectable document (Some amountField).
Proof.
  intros Hfound. exists amountField, {| Element.value := Str "42" |}, (Prim (Num 42)).
  repeat split. exact Hfound.
Defined.

Lemma collectable_rawAmount : collectable pageWithTwoAmounts (Some rawAmountField).
Proof.
  exists rawAmountField, {| Element.value := Str "7" |}, (Prim (Str "7")).
  repeat split.
Defined.

(** two descriptors that store under 'amount': the later one wins *)
Lemma hook_collects_last_value_witness :
  exists returnData,
    getResultsAfterValidations [Some amountField; Some rawAmountField] []
        pageWithTwoAmounts (Prim (Bool true)) =
      (Resolved (Obj returnData), [ResetValidationError]) /\
    returnData !! "amount" = Some (Prim (Str "7")).
Proof.
  destruct (hook_collects_last_value [Some amountField; Some rawAmountField] []
              pageWithTwoAmounts (Prim (Bool true)))
    as (returnData & Hhook & _ & Hlast).
  - constructor.
  - constructor; [by apply collectable_amount |].
    constructor; [exact collectable_rawAmount | constructor].
  - intros d Hin.
    apply elem_of_cons in Hin as [[= ->] | Hin]; [discriminate |].
    apply elem_of_cons in Hin as [[= ->] | Hin]; [discriminate |].
    by apply elem_of_nil in Hin.
  - exists returnData. split; [exact Hhook |].
    apply (Hlast [Some amountField] rawAmountField []
                 {| Element.value := Str "7" |} (Prim (Str "7")));
      try reflexivity.
    intros d' Hin. by apply elem_of_nil in Hin.
Defined.

(** a null entry after a readable one *)
Lemma unreadable_entry_rejects_witness :
  getResultsAfterValidations [Some amountField; None] [] pageWithAmount
      (Prim (Bool true)) =
    (Rejected TypeError, [ResetValidationError]).
Proof.
  apply (unreadable_entry_rejects [Some amountField] [] None [] pageWithAmount).
  - constructor.
  - constructor; [by apply collectable_amount | constructor].
  - by left.
Defined.

Lemma throwing_formatter_rejects_witness :
  getResultsAfterValidations [Some brokenAmountField] [] pageWithAmount
      (Prim (Bool true)) =
    (Rejected (Error "bad amount"), [ResetValidationError]).
Proof.
  apply (throwing_formatter_rejects [] [] brokenAmountField [] pageWithAmount
           (Prim (Bool true)) {| Element.value := Str "42" |} (Error "bad amount")).
  - constructor.
  - constructor.
  - reflexivity.
  - reflexivity.
Defined.

(** [[null, { id: 'b' }, { id: 'a', name: 'amount' }]] focuses field 'a' *)
Lemma first_valid_input_focused_witness :
  exists config onOpen,
    dialogs (getPromptedUserInput (endingWith confirmedOutcome)
               (promptOptions [None; Some namelessField; Some amountField]))
      = [config] /\
    Swal.onOpen config = Some onOpen /\
    onOpen pageWithAmount = [Focus "a"] /\
    onOpen pageWithEmpty = [Focus "a"] /\
    onOpen ∅ = [].
Proof.
  destruct (first_valid_input_focused (endingWith confirmedOutcome)
              (promptOptions [None; Some namelessField; Some amountField])
              [None; Some namelessField] [] amountField eq_refl)
    as (config & onOpen & Hfired & Hopen & Hfocus).
  - constructor; [exact not_hasIdAndName_None |].
    constructor; [exact not_hasIdAndName_nameless | constructor].
  - exact hasIdAndName_amount.
  - exists config, onOpen. split; [exact Hfired |]. split; [exact Hopen |].
    rewrite !Hfocus. repeat split.
Defined.

Lemma nullish_outcome_rejects_witness :
  promise (getPromptedUserInput (endingWith (Prim Null))
             (promptOptions [Some amountField]))
    = Rejected TypeError.
Proof.
  apply (nullish_outcome_rejects (endingWith (Prim Null))
           (promptOptions [Some amountField])
           (promptConfig (promptOptions [Some amountField]) (Str "a")) Null);
    [reflexivity | reflexivity | by right].
Defined.

Lemma widget_rejection_passes_witness :
  promise (getPromptedUserInput (fun _ => Rejected (Error "closed"))
             (promptOptions [Some amountField]))
    = Rejected (Error "closed") /\
  promise (promptAreYouSureBefore (fun _ => Rejected (Error "closed"))
             (confirmOptions (Bool true)))
    = Rejected (Error "closed").
Proof.
  destruct (widget_rejection_passes (fun _ => Rejected (Error "closed"))
              (Error "closed")) as [Hprompt Hconfirm].
  split.
  - exact (Hprompt (promptOptions [Some amountField])
             (promptConfig (promptOptions [Some amountField]) (Str "a"))
             eq_refl eq_refl).
  - exact (Hconfirm (confirmOptions (Bool true)) eq_refl).
Defined.

Lemma prompts_agree_on_confirmation_witness :
  promise (promptAreYouSureBefore (endingWith confirmedOutcome)
             (confirmOptions (Bool true)))
    = Resolved (Prim (Bool true)).
Proof.
  apply (prompts_agree_on_confirmation (endingWith confirmedOutcome)
           (confirmOptions (Bool true)) (promptOptions [Some amountField])
           (promptConfig (promptOptions [Some amountField]) (Str "a"))
           confirmedOutcome eq_refl eq_refl eq_refl eq_refl).
  by eexists.
Defined.

Lemma prompt_resolves_truthy_witness :
  truthy (Obj {[ "amount" := Prim (Num 42) ]}) = true.
Proof.
  exact (prompt_resolves_truthy (endingWith confirmedOutcome)
           (promptOptions [Some amountField])
           (Obj {[ "amount" := Prim (Num 42) ]}) eq_refl).
Defined.

(** the empty title: 'Loading...' in the notice, '' in the confirmation *)
Lemma falsy_title_handling_witness :
  (exists config,
     dialogs (showDismissableLoadingNotice (endingWith closedOutcome)
                (Str "") Undefined) = [config] /\
     Swal.titleText config = Str "Loading...") /\
  (exists config,
     dialogs (promptAreYouSureBefore (endingWith closedOutcome) emptyTitleConfirm)
       = [config] /\
     Swal.titleText config = Str "").
Proof.
  exact (falsy_title_handling (endingWith closedOutcome) (Str "") Undefined
           emptyTitleConfirm eq_refl eq_refl).
Defined.

(** a missing field and a failing rule: both messages, back to back *)
Lemma messages_concatenate_witness :
  getResultsAfterValidations [] [brokenRule; requiredRule] ∅ (Prim (Bool true)) =
    (Resolved (Prim (Bool true)),
     [ResetValidationError;
      ShowValidationError (("Field  must not be empty." ++ cr ++ nl)
                           ++ "Field  must not be empty." ++ cr ++ nl)]).
Proof.
  apply (messages_concatenate [] [brokenRule] [requiredRule] ∅ (Prim (Bool true))
           [Str ("Field  must not be empty." ++ cr ++ nl)]
           [Str ("Field  must not be empty." ++ cr ++ nl)]).
  - apply (recorded_absent ∅ brokenRule [] []); [reflexivity | constructor].
  - apply (recorded_absent ∅ requiredRule [] []); [reflexivity | constructor].
  - discriminate.
Defined.

(** a loaded object passes through the closing of the notice *)
Lemma hide_resolves_with_payload_witness :
  hideDismissableLoadingNotice (Prim Undefined) loadedData =
    {| dialogs := []; effects := [Close];
       promise := Resolved (Obj {[ "rows" := Prim (Num 3) ]}) |}.
Proof. exact (hide_resolves_with_payload (Prim Undefined) loadedData eq_refl). Defined.
